(** * jni_generator.py: a shallow embedding and its checked properties

    The generator turns annotated Java declarations into JNI glue code.
    This development embeds the parts of
    [base/android/jni_generator/jni_generator.py] that decide how types
    are resolved, how overloads are mangled, how native declarations are
    classified and how the header is assembled and written, and proves
    properties of them.

    Conventions.
    - Python [str] values are [string]; the string methods the script
      uses ([endswith], [replace], [split], [strip], slicing, ...) are
      defined below with Python's meaning.
    - The regular expressions of the script are kept as syntax trees and
      run by a small backtracking matcher with the priorities of Python's
      [re] module (leftmost alternative first, greedy and lazy stars).
    - The class-level mutable fields of [JniParams] become a record that
      is passed explicitly.
    - A raised exception is a value of [exn]; a function that may raise
      returns [result]. *)

From Stdlib Require Import Ascii String List ZArith Lia Bool DecimalString.
From stdpp Require Import base option list gmap strings.

Local Open Scope list_scope.

(** ** Characters *)

Definition code (c : ascii) : nat := nat_of_ascii c.

Definition in_range (lo hi c : ascii) : bool :=
  (code lo <=? code c)%nat && (code c <=? code hi)%nat.

Definition is_upper (c : ascii) : bool := in_range "A" "Z" c.
Definition is_lower (c : ascii) : bool := in_range "a" "z" c.
Definition is_digit (c : ascii) : bool := in_range "0" "9" c.

(** [\w] of a byte pattern without LOCALE or UNICODE: [[a-zA-Z0-9_]]. *)
Definition is_word (c : ascii) : bool :=
  is_lower c || is_upper c || is_digit c || Ascii.eqb c "_".

(** [\s]: space, tab, newline, carriage return, form feed, vertical tab. *)
Definition is_space (c : ascii) : bool :=
  Ascii.eqb c " " || in_range "009" "013" c.

Definition newline : ascii := "010".
Definition dquote : ascii := "034".
Definition squote : ascii := "039".
Definition backslash : ascii := "092".

Definition NL : string := String newline "".
Definition DQ : string := String dquote "".

(** [c.upper()] on one character. *)
Definition to_upper (c : ascii) : ascii :=
  if is_lower c then ascii_of_nat (code c - 32) else c.

(** ** Python string methods *)

Definition chars (s : string) : list ascii := list_ascii_of_string s.
Definition str (l : list ascii) : string := string_of_list_ascii l.

(** [s.startswith(p)] *)
Definition startswith (s p : string) : bool := String.prefix p s.

(** [s.endswith(suf)]: some tail of [s] is [suf]. *)
Fixpoint endswith (s suf : string) : bool :=
  if String.eqb s suf then true
  else match s with
       | EmptyString => false
       | String _ s' => endswith s' suf
       end.

(** [sub in s] *)
Fixpoint str_in (sub s : string) : bool :=
  if String.prefix sub s then true
  else match s with
       | EmptyString => false
       | String _ s' => str_in sub s'
       end.

(** [s[:n]] and [s[n:]] for [0 <= n]. *)
Fixpoint str_take (n : nat) (s : string) : string :=
  match n, s with
  | S n', String c s' => String c (str_take n' s')
  | _, _ => EmptyString
  end.

Fixpoint str_drop (n : nat) (s : string) : string :=
  match n, s with
  | S n', String _ s' => str_drop n' s'
  | _, _ => s
  end.

(** [s[-n:]] and [s[:-n]] for [0 < n]. *)
Definition str_last (n : nat) (s : string) : string :=
  str_drop (String.length s - n) s.

Definition str_drop_last (n : nat) (s : string) : string :=
  str_take (String.length s - n) s.

(** [s.find(c)] for a one-character [c]: [None] stands for -1. *)
Fixpoint str_find (c : ascii) (s : string) : option nat :=
  match s with
  | EmptyString => None
  | String a s' => if Ascii.eqb a c then Some 0%nat else S <$> str_find c s'
  end.

(** [s.replace(old, new)]: the non-overlapping occurrences of [old], found
    from the left, become [new].  [skip] counts the characters of an
    occurrence that are still to be passed over. *)
Fixpoint replace_from (old new : string) (skip : nat) (s : string) : string :=
  match s with
  | EmptyString =>
      match skip, old with
      | O, EmptyString => new
      | _, _ => EmptyString
      end
  | String c s' =>
      match skip with
      | S k => replace_from old new k s'
      | O =>
          if String.prefix old s then
            match old with
            | EmptyString => new +:+ String c (replace_from old new 0 s')
            | String _ old' => new +:+ replace_from old new (String.length old') s'
            end
          else String c (replace_from old new 0 s')
      end
  end.

Definition str_replace (old new s : string) : string := replace_from old new 0 s.

(** [s.split(sep)] for a non-empty [sep].  [cur] holds the characters of
    the piece being read, last one first. *)
Fixpoint split_from (sep : string) (skip : nat) (cur : list ascii) (s : string)
  : list string :=
  match s with
  | EmptyString => [str (rev cur)]
  | String c s' =>
      match skip with
      | S k => split_from sep k cur s'
      | O =>
          if String.prefix sep s then
            str (rev cur) :: split_from sep (String.length sep - 1) [] s'
          else split_from sep 0 (c :: cur) s'
      end
  end.

Definition str_split (sep s : string) : list string := split_from sep 0 [] s.

(** [sep.join(l)] *)
Fixpoint str_join (sep : string) (l : list string) : string :=
  match l with
  | [] => ""
  | [x] => x
  | x :: l' => x +:+ sep +:+ str_join sep l'
  end.

(** [s.lstrip()], [s.rstrip()], [s.strip()] *)
Fixpoint lstrip (s : string) : string :=
  match s with
  | String c s' => if is_space c then lstrip s' else s
  | EmptyString => EmptyString
  end.

Definition rstrip (s : string) : string := str (rev (chars (lstrip (str (rev (chars s)))))).

Definition strip (s : string) : string := rstrip (lstrip s).

(** ** Regular expressions

    The syntax the script's patterns need.  [Star true r] is [r*],
    [Star false r] is [r*?]; [Grp n r] is [(?P<n>r)]; [EolM] is [$] under
    [re.MULTILINE]. *)

Inductive regex : Type :=
| Eps
| Chr (p : ascii -> bool)
| Lit (s : string)
| Cat (r1 r2 : regex)
| Alt (r1 r2 : regex)
| Star (greedy : bool) (r : regex)
| Grp (name : string) (r : regex)
| EolM.

Definition greedy := true.
Definition lazy := false.

Definition Plus (g : bool) (r : regex) : regex := Cat r (Star g r).
(** [r?] *)
Definition Opt (r : regex) : regex := Alt r Eps.
Definition Seq (rs : list regex) : regex := foldr Cat Eps rs.

(** [.] without and with [re.DOTALL], [\s], [\S], [\w], [\W], [[^...]] *)
Definition dot : regex := Chr (fun c => negb (Ascii.eqb c newline)).
Definition dot_all : regex := Chr (fun _ => true).
Definition space : regex := Chr is_space.
Definition nonspace : regex := Chr (fun c => negb (is_space c)).
Definition word : regex := Chr is_word.
Definition nonword : regex := Chr (fun c => negb (is_word c)).
Definition none_of (l : list ascii) : regex :=
  Chr (fun c => negb (existsb (Ascii.eqb c) l)).

(** The groups of a match, most recent binding first. *)
Definition captures : Type := list (string * string).

Fixpoint strip_prefix (p : string) (s : list ascii) : option (list ascii) :=
  match p with
  | EmptyString => Some s
  | String a p' =>
      match s with
      | b :: s' => if Ascii.eqb a b then strip_prefix p' s' else None
      | [] => None
      end
  end.

(** The text between two positions of the subject, the second being a
    tail of the first. *)
Definition consumed (s s' : list ascii) : string :=
  str (take (length s - length s') s).

(** Backtracking matcher in continuation-passing style: [k] receives the
    rest of the subject and the groups bound so far, and answers [None] to
    ask for the next alternative.  An iteration of a star that consumes
    nothing is not repeated. *)
Fixpoint rmatch {A : Type} (r : regex) (s : list ascii) (c : captures)
    (k : list ascii -> captures -> option A) : option A :=
  match r with
  | Eps => k s c
  | Chr p =>
      match s with
      | a :: s' => if p a then k s' c else None
      | [] => None
      end
  | Lit l =>
      match strip_prefix l s with
      | Some s' => k s' c
      | None => None
      end
  | Cat r1 r2 => rmatch r1 s c (fun s' c' => rmatch r2 s' c' k)
  | Alt r1 r2 =>
      match rmatch r1 s c k with
      | Some x => Some x
      | None => rmatch r2 s c k
      end
  | Star g r1 =>
      (fix loop (n : nat) (s : list ascii) (c : captures) {struct n} : option A :=
         let more :=
           match n with
           | O => None
           | S n' =>
               rmatch r1 s c
                 (fun s' c' =>
                    if (length s' <? length s)%nat then loop n' s' c' else None)
           end in
         if g then
           match more with
           | Some x => Some x
           | None => k s c
           end
         else
           match k s c with
           | Some x => Some x
           | None => more
           end) (length s) s c
  | Grp name r1 =>
      rmatch r1 s c (fun s' c' => k s' ((name, consumed s s') :: c'))
  | EolM =>
      match s with
      | [] => k s c
      | a :: _ => if Ascii.eqb a newline then k s c else None
      end
  end.

(** A match object: [group(0)] and the named groups. *)
Record rematch : Type := { m_text : string; m_groups : captures }.

(** [m.group(name)]; [None] when the group took no part in the match. *)
Fixpoint assoc (name : string) (c : captures) : option string :=
  match c with
  | [] => None
  | (n, v) :: c' => if String.eqb n name then Some v else assoc name c'
  end.

Definition group (m : rematch) (name : string) : option string :=
  assoc name (m_groups m).

(** [m.group(name)] for a group that every match of the pattern binds. *)
Definition group_str (m : rematch) (name : string) : string :=
  default "" (group m name).

(** A match starting exactly at the head of [s]: the rest and the groups. *)
Definition match_at (r : regex) (s : list ascii) : option (list ascii * captures) :=
  rmatch r s [] (fun s' c => Some (s', c)).

(** The subject cut into unmatched characters and successive
    non-overlapping matches, as [re.finditer] and [re.sub] traverse it.
    None of the script's patterns matches the empty string, so an empty
    match is passed over. *)
Inductive token : Type :=
| TChar (a : ascii)
| TMatch (m : rematch).

Fixpoint scan (r : regex) (skip : nat) (s : list ascii) : list token :=
  match s with
  | [] => []
  | a :: s' =>
      match skip with
      | S k => scan r k s'
      | O =>
          match match_at r s with
          | Some (rest, c) =>
              match (length s - length rest)%nat with
              | O => TChar a :: scan r 0 s'
              | S n =>
                  TMatch {| m_text := consumed s rest; m_groups := c |}
                    :: scan r n s'
              end
          | None => TChar a :: scan r 0 s'
          end
      end
  end.

(** [re.finditer(r, s)] *)
Definition finditer (r : regex) (s : string) : list rematch :=
  omap (fun t => match t with TMatch m => Some m | TChar _ => None end)
       (scan r 0 (chars s)).

(** [re.sub(r, f, s)] with a function [f] of the matched text. *)
Definition re_sub (r : regex) (f : string -> string) (s : string) : string :=
  foldr (fun t acc => match t with
                      | TChar a => String a acc
                      | TMatch m => f (m_text m) +:+ acc
                      end) "" (scan r 0 (chars s)).

(** ** Exceptions and results *)

Inductive exn : Type :=
| SyntaxError (msg : string)
| ParseError (description : string) (context_lines : list string)
| RuntimeError (msg : string)
| AssertionError
| IndexError
| IOError (path : string).

Inductive result (A : Type) : Type :=
| Ok (a : A)
| Raise (e : exn).
Arguments Ok {A} a.
Arguments Raise {A} e.

Definition bind {A B : Type} (x : result A) (f : A -> result B) : result B :=
  match x with
  | Ok a => f a
  | Raise e => Raise e
  end.

Notation "x <- e1 ;; e2" := (bind e1 (fun x => e2))
  (at level 100, e1 at next level, right associativity).

(** A [for] loop whose body may raise and that collects one value per
    element; the first exception ends it. *)
Fixpoint for_each {A B : Type} (f : A -> result B) (l : list A) : result (list B) :=
  match l with
  | [] => Ok []
  | a :: l' => b <- f a ;; bs <- for_each f l' ;; Ok (b :: bs)
  end.

(** A [for] loop that threads a state through a body that may raise. *)
Fixpoint for_state {A S : Type} (f : S -> A -> result S) (l : list A) (s : S)
  : result S :=
  match l with
  | [] => Ok s
  | a :: l' => s' <- f s a ;; for_state f l' s'
  end.

Definition is_ok {A : Type} (x : result A) : bool :=
  match x with Ok _ => true | Raise _ => false end.

(** Truth value of an optional string: [None] and [''] are false. *)
Definition truthy (o : option string) : bool :=
  match o with
  | Some (String _ _) => true
  | _ => false
  end.

(** ['%s' % n] for a non-negative integer. *)
Definition str_of_nat (n : nat) : string := NilZero.string_of_uint (Nat.to_uint n).

(** [l[:-1]] and [l[-1]], [l[-2]] *)
Definition all_but_last {A : Type} (l : list A) : list A := take (length l - 1) l.
Definition from_end {A : Type} (i : nat) (l : list A) : option A :=
  if (i <=? length l)%nat then l !! (length l - i)%nat else None.

(** ** The data model *)

Module Param.
(** [class Param]: a parameter of a method, either java or native. *)
Record t : Type := Param { datatype : string; name : string }.
End Param.
Abbreviation Param := Param.t.

Inductive native_type : Type := method | function.

Module NativeMethod.
(** [class NativeMethod]: a C/C++ method that is called by Java code.
    [p0_type] is set only when [type] is [method]. *)
Record t : Type := NativeMethod {
  static : bool;
  java_class_name : option string;
  return_type : string;
  name : string;
  params : list Param;
  type : native_type;
  p0_type : option string;
  method_id_var_name : option string
}.

(** [NativeMethod.__init__].  The keyword arguments read with
    [kwargs.get] are optional; the two [assert]s on the type of
    [params] hold by typing. *)
Definition __init__ (static : bool) (java_class_name native_class_name : option string)
    (return_type name : string) (params : list Param) (ptr_type : option string)
    (method_id_var_name : option string) : t :=
  let is_method :=
    match params with
    | p0 :: _ =>
        String.eqb (Param.datatype p0) (default "int" ptr_type)
        && startswith (Param.name p0) "native"
    | [] => false
    end in
  if is_method then
    let p0_name := match params with p0 :: _ => Param.name p0 | [] => "" end in
    let p0_type := str_drop (String.length "native") p0_name in
    let p0_type := if truthy native_class_name
                   then default "" native_class_name else p0_type in
    NativeMethod static java_class_name return_type name params method
                 (Some p0_type) method_id_var_name
  else
    NativeMethod static java_class_name return_type name params function
                 None method_id_var_name.
End NativeMethod.
Abbreviation NativeMethod := NativeMethod.t.

(** [GetStaticCastForReturnType] *)
Definition GetStaticCastForReturnType (return_type : string) : option string :=
  let type_map : list (string * string) :=
    [ ("String", "jstring");
      ("java/lang/String", "jstring");
      ("Throwable", "jthrowable");
      ("java/lang/Throwable", "jthrowable");
      ("boolean[]", "jbooleanArray");
      ("byte[]", "jbyteArray");
      ("char[]", "jcharArray");
      ("short[]", "jshortArray");
      ("int[]", "jintArray");
      ("long[]", "jlongArray");
      ("float[]", "jfloatArray");
      ("double[]", "jdoubleArray") ] in
  match assoc return_type type_map with
  | Some ret => Some ret
  | None => if endswith return_type "[]" then Some "jobjectArray" else None
  end.

(** [GetEnvCall]: the types available via [env->Call__Method]. *)
Definition GetEnvCall (is_constructor is_static : bool) (return_type : string) : string :=
  if is_constructor then "NewObject"
  else
    let env_call_map : list (string * string) :=
      [ ("boolean", "Boolean"); ("byte", "Byte"); ("char", "Char");
        ("short", "Short"); ("int", "Int"); ("long", "Long");
        ("float", "Float"); ("void", "Void"); ("double", "Double");
        ("Object", "Object") ] in
    let call := default "Object" (assoc return_type env_call_map) in
    let call := if is_static then "Static" +:+ call else call in
    "Call" +:+ call +:+ "Method".

Module CalledByNative.
(** [class CalledByNative]: a java method exported to c/c++. *)
Record t : Type := CalledByNative {
  system_class : bool;
  unchecked : bool;
  static : bool;
  java_class_name : string;
  return_type : string;
  name : string;
  params : list Param;
  method_id_var_name : option string;
  signature : option string;
  is_constructor : bool;
  env_call : string;
  static_cast : option string
}.

Definition __init__ (system_class unchecked static : bool)
    (java_class_name return_type name : string) (params : list Param)
    (signature : option string) (is_constructor : bool) : t :=
  CalledByNative system_class unchecked static java_class_name return_type
    name params None signature is_constructor
    (GetEnvCall is_constructor static return_type)
    (GetStaticCastForReturnType return_type).

(** [called_by_native.method_id_var_name = v] *)
Definition set_method_id_var_name (v : string) (c : t) : t :=
  CalledByNative (system_class c) (unchecked c) (static c) (java_class_name c)
    (return_type c) (name c) (params c) (Some v) (signature c)
    (is_constructor c) (env_call c) (static_cast c).
End CalledByNative.
Abbreviation CalledByNative := CalledByNative.t.

(** ** [class JniParams]

    The class attributes, passed explicitly.  [_implicit_imports] is the
    list of lines of the file [android_jar.classes], which the script
    reads on the first ambiguity check and keeps; the file is not part of
    the script, so its lines are a field here. *)
Record JniParams : Type := {
  _imports : list string;
  _fully_qualified_class : string;
  _package : string;
  _inner_classes : list string;
  _implicit_imports : list string
}.

Definition set_imports (l : list string) (j : JniParams) : JniParams :=
  {| _imports := l;
     _fully_qualified_class := _fully_qualified_class j;
     _package := _package j;
     _inner_classes := _inner_classes j;
     _implicit_imports := _implicit_imports j |}.

Definition set_inner_classes (l : list string) (j : JniParams) : JniParams :=
  {| _imports := _imports j;
     _fully_qualified_class := _fully_qualified_class j;
     _package := _package j;
     _inner_classes := l;
     _implicit_imports := _implicit_imports j |}.

(** [JniParams.SetFullyQualifiedClass] *)
Definition SetFullyQualifiedClass (fully_qualified_class : string) (j : JniParams)
  : JniParams :=
  {| _imports := _imports j;
     _fully_qualified_class := "L" +:+ fully_qualified_class;
     _package := str_join "/" (all_but_last (str_split "/" fully_qualified_class));
     _inner_classes := _inner_classes j;
     _implicit_imports := _implicit_imports j |}.

(** [JniParams.AddAdditionalImport] *)
Definition AddAdditionalImport (class_name : string) (j : JniParams) : result JniParams :=
  if negb (endswith class_name ".class") then Raise AssertionError else
  let raw_class_name := str_drop_last (String.length ".class") class_name in
  if str_in "." raw_class_name then
    Raise (SyntaxError (class_name +:+ " cannot be used in @JNIAdditionalImport. "
                        +:+ "Only import unqualified outer classes."))
  else
    let new_import := "L" +:+ _package j +:+ "/" +:+ raw_class_name in
    if bool_decide (new_import ∈ _imports j) then
      Raise (SyntaxError ("Do not use JNIAdditionalImport on an already "
                          +:+ "imported class: " +:+ str_replace "/" "." new_import))
    else Ok (set_imports (_imports j ++ [new_import]) j).

(** [r'import.*?(?P<class>\S*?);'] *)
Definition re_import : regex :=
  Seq [Lit "import"; Star lazy dot; Grp "class" (Star lazy nonspace); Lit ";"].

(** [r'(class|interface)\s+?(?P<name>\w+?)\W'] *)
Definition re_inner : regex :=
  Seq [Alt (Lit "class") (Lit "interface"); Plus lazy space;
       Grp "name" (Plus lazy word); nonword].

(** [r'@JNIAdditionalImport\(\s*{?(?P<class_names>.*?)}?\s*\)'] *)
Definition re_additional_imports : regex :=
  Seq [Lit "@JNIAdditionalImport("; Star greedy space; Opt (Lit "{");
       Grp "class_names" (Star lazy dot); Opt (Lit "}"); Star greedy space;
       Lit ")"].

(** The entry that a match of [re_import] adds to [_imports]. *)
Definition import_of_match (m : rematch) : string :=
  "L" +:+ str_replace "." "/" (group_str m "class").

(** [JniParams.ExtractImportsAndInnerClasses] *)
Definition ExtractImportsAndInnerClasses (contents : string) (j : JniParams)
  : result JniParams :=
  if String.eqb (_package j) "" then
    Raise (RuntimeError ("SetFullyQualifiedClass must be called before "
                         +:+ "ExtractImportsAndInnerClasses"))
  else
    let contents := str_replace NL "" contents in
    let j := foldl (fun j m => set_imports (_imports j ++ [import_of_match m]) j)
                   j (finditer re_import contents) in
    let j := foldl (fun j m =>
                      let inner := group_str m "name" in
                      if negb (endswith (_fully_qualified_class j) inner) then
                        set_inner_classes
                          (_inner_classes j
                           ++ [_fully_qualified_class j +:+ "$" +:+ inner]) j
                      else j)
                   j (finditer re_inner contents) in
    for_state (fun j m =>
                 for_state (fun j class_name => AddAdditionalImport (strip class_name) j)
                           (str_split "," (group_str m "class_names")) j)
              (finditer re_additional_imports contents) j.

(** The primitive-type table and the well-known object types of
    [JavaToJni]. *)
Definition pod_param_map : list (string * string) :=
  [ ("int", "I"); ("boolean", "Z"); ("char", "C"); ("short", "S");
    ("long", "J"); ("double", "D"); ("float", "F"); ("byte", "B");
    ("void", "V") ].

Definition object_param_list : list string :=
  [ "Ljava/lang/Boolean"; "Ljava/lang/Integer"; "Ljava/lang/Long";
    "Ljava/lang/Object"; "Ljava/lang/String"; "Ljava/lang/Class";
    "Ljava/lang/CharSequence"; "Ljava/lang/Runnable"; "Ljava/lang/Throwable" ].

(** The [while param[-2:] == '[]'] loop of [JavaToJni]: the array prefix
    and the element type.  At most [length param] rounds can happen, which
    is the bound given by [strip_arrays]. *)
Fixpoint strip_arrays_loop (rounds : nat) (prefix param : string) : string * string :=
  match rounds with
  | O => (prefix, param)
  | S n =>
      if String.eqb (str_last 2 param) "[]"
      then strip_arrays_loop n (prefix +:+ "[") (str_drop_last 2 param)
      else (prefix, param)
  end.

Definition strip_arrays (param : string) : string * string :=
  strip_arrays_loop (String.length param) "" param.

(** [if '<' in param: param = param[:param.index('<')]] *)
Definition strip_generic (param : string) : string :=
  match str_find "<" param with
  | Some i => str_take i param
  | None => param
  end.

(** [JniParams._CheckImplicitImports]: raises when a line of the table
    names a class whose simple name is [param]. *)
Definition normalize_implicit_import (line : string) : string :=
  str_replace "/" "." (str_replace ".class" "" (strip line)).

(** The message of the [SyntaxError] of [_CheckImplicitImports]. *)
Definition ambiguous_class_message (param implicit_import : string) : string :=
  "Ambiguous class (" +:+ param +:+ ") can not be used directly by JNI." +:+ NL
  +:+ "Please import it, probably:" +:+ NL +:+ NL
  +:+ "import " +:+ implicit_import +:+ ";".

(** The message of the [SyntaxError] for an imported inner class. *)
Definition inner_class_message (qualified_name param : string) : string :=
  "Inner class (" +:+ qualified_name +:+ ") can not be imported "
  +:+ "and used by JNI (" +:+ param +:+ "). Please import the outer "
  +:+ "class and use Outer.Inner instead.".

Definition _CheckImplicitImports (j : JniParams) (param : string) : result unit :=
  match find (fun line => endswith (normalize_implicit_import line) ("." +:+ param))
             (_implicit_imports j) with
  | Some line =>
      Raise (SyntaxError (ambiguous_class_message param (normalize_implicit_import line)))
  | None => Ok tt
  end.

(** The test that [JavaToJni] makes on an import that matches:
    [len(components) > 2 and components[-2][0].isupper()] for
    [components = qualified_name.split('/')].  Indexing an empty
    [components[-2]] raises. *)
Definition is_inner_class_import (qualified_name : string) : result bool :=
  let components := str_split "/" qualified_name in
  if (2 <? length components)%nat then
    match from_end 2 components with
    | Some (String c _) => Ok (is_upper c)
    | _ => Raise IndexError
    end
  else Ok false.

(** The first loop of [JavaToJni]: the well-known object types, the class
    of the file and its inner classes, searched in this order. *)
Definition find_known_class (j : JniParams) (param : string) : option string :=
  find (fun qualified_name =>
          endswith qualified_name ("/" +:+ param)
          || endswith qualified_name ("$" +:+ str_replace "." "$" param)
          || String.eqb qualified_name ("L" +:+ param))
       (object_param_list ++ [_fully_qualified_class j] ++ _inner_classes j).

(** The loops over [JniParams._imports]: the first import whose last
    path segment is [name]. *)
Definition find_import (j : JniParams) (name : string) : option string :=
  find (fun qualified_name => endswith qualified_name ("/" +:+ name)) (_imports j).

(** The part of [JavaToJni] after the array markers and the generic
    suffix are gone. *)
Definition resolve (j : JniParams) (prefix param : string) : result string :=
  match assoc param pod_param_map with
  | Some code => Ok (prefix +:+ code)
  | None =>
  if str_in "/" param then
    (* Coming from javap, use the fully qualified param directly. *)
    Ok (prefix +:+ "L" +:+ param +:+ ";")
  else
  match find_known_class j param with
  | Some qualified_name => Ok (prefix +:+ qualified_name +:+ ";")
  | None =>
  (* Is it from an import? *)
  match find_import j param with
  | Some qualified_name =>
      (* Ensure it's not an inner class. *)
      inner <- is_inner_class_import qualified_name ;;
      if inner : bool then
        Raise (SyntaxError (inner_class_message qualified_name param))
      else Ok (prefix +:+ qualified_name +:+ ";")
  | None =>
  (* Is it an inner class from an outer class import? *)
  if str_in "." param then
    let components := str_split "." param in
    let outer := str_join "/" (all_but_last components) in
    let inner := default "" (from_end 1 components) in
    match find_import j outer with
    | Some qualified_name => Ok (prefix +:+ qualified_name +:+ "$" +:+ inner +:+ ";")
    | None =>
        Raise (SyntaxError
                 ("Inner class (" +:+ param +:+ ") can not be "
                  +:+ "used directly by JNI. Please import the outer "
                  +:+ "class, probably:" +:+ NL
                  +:+ "import " +:+ str_replace "/" "." (_package j) +:+ "."
                  +:+ str_replace "/" "." outer +:+ ";"))
    end
  else
    _ <- _CheckImplicitImports j param ;;
    (* Type not found, falling back to same package as this class. *)
    Ok (prefix +:+ "L" +:+ _package j +:+ "/" +:+ param +:+ ";")
  end end end.

(** [JniParams.JavaToJni]: converts a java param into a JNI signature
    type. *)
Definition JavaToJni (j : JniParams) (param : string) : result string :=
  let '(prefix, param) := strip_arrays param in
  let param := strip_generic param in
  resolve j prefix param.

(** The name that [JavaToJni] looks up for [param], and the array prefix
    it puts before the answer. *)
Definition element_type (param : string) : string :=
  strip_generic (snd (strip_arrays param)).

Definition array_prefix (param : string) : string := fst (strip_arrays param).

(** [JniParams.Signature]: the JNI signature for the given datatypes. *)
Definition Signature (j : JniParams) (params : list Param) (returns : string)
    (wrap : bool) : result string :=
  ps <- for_each (fun p => JavaToJni j (Param.datatype p)) params ;;
  r <- JavaToJni j returns ;;
  let items := ["("] ++ ps ++ [")"] ++ [r] in
  if wrap then
    Ok (NL +:+ str_join NL (map (fun item => DQ +:+ item +:+ DQ) items))
  else Ok (DQ +:+ str_join "" items +:+ DQ).

(** [while items[0].startswith('@'): del items[0]] *)
Fixpoint drop_annotations (items : list string) : result (list string) :=
  match items with
  | [] => Raise IndexError
  | i :: rest => if startswith i "@" then drop_annotations rest else Ok items
  end.

(** [items.remove(x)] for an [x] that is in [items] *)
Fixpoint remove_first (x : string) (items : list string) : list string :=
  match items with
  | [] => []
  | i :: rest => if String.eqb i x then rest else i :: remove_first x rest
  end.

(** [JniParams.Parse]: parses the params into a list of [Param]. *)
Definition Parse (params : string) : result (list Param) :=
  if String.eqb params "" then Ok []
  else
    for_state
      (fun ret p =>
         let items := str_split " " p in
         (* Remove @Annotations from parameters. *)
         items <- drop_annotations items ;;
         let items := if bool_decide ("final" ∈ items)
                      then remove_first "final" items else items in
         match items with
         | [] => Raise IndexError
         | [datatype] =>
             Ok (ret ++ [Param.Param datatype ("p" +:+ str_of_nat (length ret))])
         | datatype :: name :: _ => Ok (ret ++ [Param.Param datatype name])
         end)
      (map strip (str_split "," params)) [].

(** [re.findall] for a pattern with one group, named ["1"] here. *)
Definition findall1 (r : regex) (s : string) : list string :=
  map (fun m => group_str m "1") (finditer r s).

(** [.*?@JNINamespace\( Q (.*?) Q \)], Q being the double quote *)
Definition re_jni_namespace : regex :=
  Seq [Star lazy dot; Lit ("@JNINamespace(" +:+ DQ); Grp "1" (Star lazy dot);
       Lit (DQ +:+ ")")].

Definition ExtractJNINamespace (contents : string) : string :=
  match findall1 re_jni_namespace contents with
  | [] => ""
  | m0 :: _ => m0
  end.

(** [s.rfind(c)], [None] for -1 *)
Fixpoint str_rfind (c : ascii) (s : string) : option nat :=
  match s with
  | EmptyString => None
  | String a s' =>
      match str_rfind c s' with
      | Some i => Some (S i)
      | None => if Ascii.eqb a c then Some 0%nat else None
      end
  end.

(** [os.path.basename], [os.path.dirname] and [os.path.splitext] of
    [posixpath]. *)
Definition basename (p : string) : string :=
  match str_rfind "/" p with
  | Some i => str_drop (S i) p
  | None => p
  end.

Fixpoint all_slashes (s : string) : bool :=
  match s with
  | EmptyString => true
  | String c s' => Ascii.eqb c "/" && all_slashes s'
  end.

Fixpoint drop_while_slash (l : list ascii) : list ascii :=
  match l with
  | c :: l' => if Ascii.eqb c "/" then drop_while_slash l' else l
  | [] => []
  end.

Definition dirname (p : string) : string :=
  let head := match str_rfind "/" p with
              | Some i => str_take (S i) p
              | None => ""
              end in
  if negb (String.eqb head "") && negb (all_slashes head)
  then str (rev (drop_while_slash (rev (chars head))))
  else head.

Definition splitext (p : string) : string * string :=
  let filenameIndex := match str_rfind "/" p with Some i => S i | None => 0%nat end in
  match str_rfind "." p with
  | Some dotIndex =>
      if (filenameIndex <=? dotIndex)%nat
         && existsb (fun c => negb (Ascii.eqb c "."))
                    (chars (str_take (dotIndex - filenameIndex) (str_drop filenameIndex p)))
      then (str_take dotIndex p, str_drop dotIndex p)
      else (p, "")
  | None => (p, "")
  end.

(** ['.*?package (.*?);'] *)
Definition re_package : regex :=
  Seq [Star lazy dot; Lit "package "; Grp "1" (Star lazy dot); Lit ";"].

Definition ExtractFullyQualifiedJavaClassName (java_file_name contents : string)
  : result string :=
  match findall1 re_package contents with
  | [] => Raise (SyntaxError ("Unable to find " +:+ DQ +:+ "package" +:+ DQ
                              +:+ " line in " +:+ java_file_name))
  | m0 :: _ =>
      Ok (str_replace "." "/" m0 +:+ "/" +:+ fst (splitext (basename java_file_name)))
  end.

(** The pattern of [ExtractNatives], written here with a blank between
    its parts and Q for the double quote:
    [( @NativeClassQualifiedName \( Q (?P<native_class_name> .*? ) Q \) \s+ )?]
    [( @NativeCall ( \( Q (?P<java_class_name> .*? ) Q \) ) \s+ )?]
    [(?P<qualifiers> \w+\s\w+ | \w+ | \s+ ) \s* native_]
    [(?P<return_type> \S* ) _]
    [(?P<name> native\w+ ) \( (?P<params> .*? ) \) ;]
    where _ is one blank of the pattern. *)
Definition re_native : regex :=
  Seq [Opt (Seq [Lit ("@NativeClassQualifiedName(" +:+ DQ);
                 Grp "native_class_name" (Star lazy dot);
                 Lit (DQ +:+ ")"); Plus greedy space]);
       Opt (Seq [Lit "@NativeCall";
                 Seq [Lit ("(" +:+ DQ); Grp "java_class_name" (Star lazy dot);
                      Lit (DQ +:+ ")")];
                 Plus greedy space]);
       Grp "qualifiers"
           (Alt (Seq [Plus greedy word; space; Plus greedy word])
                (Alt (Plus greedy word) (Plus greedy space)));
       Star greedy space; Lit "native ";
       Grp "return_type" (Star greedy nonspace); Lit " ";
       Grp "name" (Seq [Lit "native"; Plus greedy word]); Lit "(";
       Grp "params" (Star lazy dot); Lit ");"].

(** The [NativeMethod] that [ExtractNatives] builds from one match. *)
Definition native_of_match (ptr_type : string) (m : rematch) : result NativeMethod :=
  params <- Parse (group_str m "params") ;;
  Ok (NativeMethod.__init__
        (str_in "static" (group_str m "qualifiers"))
        (group m "java_class_name")
        (group m "native_class_name")
        (group_str m "return_type")
        (str_replace "native" "" (group_str m "name"))
        params
        (Some ptr_type)
        None).

(** [ExtractNatives]: the native methods of a file. *)
Definition ExtractNatives (contents ptr_type : string) : result (list NativeMethod) :=
  let contents := str_replace NL "" contents in
  for_each (native_of_match ptr_type) (finditer re_native contents).

(** [GetMangledParam]: a mangled identifier for the datatype.  [prev] is
    [datatype[i - 1]]. *)
Fixpoint mangle_from (prev : ascii) (s : string) : string :=
  match s with
  | EmptyString => ""
  | String c s' =>
      (if Ascii.eqb c "[" then "A"
       else if is_upper c || Ascii.eqb prev "/" || Ascii.eqb prev "L"
            then String (to_upper c) ""
            else "")
      +:+ mangle_from c s'
  end.

Definition GetMangledParam (datatype : string) : string :=
  if (String.length datatype <=? 2)%nat then str_replace "[" "A" datatype
  else match datatype with
       | String c0 s => mangle_from c0 s
       | EmptyString => ""
       end.

(** [r'[0-9a-zA-Z_]+'], the pattern of the [assert] in
    [GetMangledMethodName] *)
Definition re_identifier : regex :=
  Plus greedy (Chr (fun c => is_digit c || is_lower c || is_upper c || Ascii.eqb c "_")).

(** [re.match(r, s)] as a truth value *)
Definition re_match (r : regex) (s : string) : bool :=
  match match_at r (chars s) with Some _ => true | None => false end.

(** [GetMangledMethodName]: a mangled method name for the given
    signature. *)
Definition GetMangledMethodName (j : JniParams) (name : string) (params : list Param)
    (return_type : string) : result string :=
  mangled_items <-
    for_each (fun datatype => d <- JavaToJni j datatype ;; Ok (GetMangledParam d))
             ([return_type] ++ map Param.datatype params) ;;
  let mangled_name := name +:+ str_join "_" mangled_items in
  if re_match re_identifier mangled_name then Ok mangled_name
  else Raise AssertionError.

(** [method_counts[java_class_name][name]] of a
    [defaultdict(lambda: defaultdict(lambda: 0))] *)
Definition count_of (method_counts : gmap string (gmap string nat))
    (java_class_name name : string) : nat :=
  default 0%nat (default ∅ (method_counts !! java_class_name) !! name).

Definition count_up (method_counts : gmap string (gmap string nat))
    (java_class_name name : string) : gmap string (gmap string nat) :=
  <[java_class_name :=
      <[name := S (count_of method_counts java_class_name name)]>
        (default ∅ (method_counts !! java_class_name))]> method_counts.

(** [MangleCalledByNatives]: mangles all the overloads from the list. *)
Definition MangleCalledByNatives (j : JniParams) (called_by_natives : list CalledByNative)
  : result (list CalledByNative) :=
  let method_counts :=
    foldl (fun mc c => count_up mc (CalledByNative.java_class_name c)
                                (CalledByNative.name c))
          ∅ called_by_natives in
  for_each
    (fun called_by_native =>
       let java_class_name := CalledByNative.java_class_name called_by_native in
       let method_name := CalledByNative.name called_by_native in
       method_id_var_name <-
         (if (1 <? count_of method_counts java_class_name method_name)%nat then
            GetMangledMethodName j method_name
              (CalledByNative.params called_by_native)
              (CalledByNative.return_type called_by_native)
          else Ok method_name) ;;
       Ok (CalledByNative.set_method_id_var_name method_id_var_name called_by_native))
    called_by_natives.

(** [RE_CALLED_BY_NATIVE], written the same way:
    [@CalledByNative (?P<Unchecked> (Unchecked)*? )]
    [(?: \( Q (?P<annotation> .* ) Q \) )?]
    [\s+ (?P<prefix> [\w ]*? )]
    [( :? \s* @ \w+ )?]
    [\s* (?P<return_type> \S+? )]
    [\s+ (?P<name> \w+ )]
    [\s* \( (?P<params> [^\)]* ) \)] *)
Definition RE_CALLED_BY_NATIVE : regex :=
  Seq [Lit "@CalledByNative";
       Grp "Unchecked" (Star lazy (Lit "Unchecked"));
       Opt (Seq [Lit ("(" +:+ DQ); Grp "annotation" (Star greedy dot);
                 Lit (DQ +:+ ")")]);
       Plus greedy space;
       Grp "prefix" (Star lazy (Chr (fun c => is_word c || Ascii.eqb c " ")));
       Opt (Seq [Opt (Lit ":"); Star greedy space; Lit "@"; Plus greedy word]);
       Star greedy space;
       Grp "return_type" (Plus lazy nonspace);
       Plus greedy space;
       Grp "name" (Plus greedy word);
       Star greedy space; Lit "(";
       Grp "params" (Star greedy (none_of [")"%char]));
       Lit ")"].

(** The [CalledByNative] that [ExtractCalledByNatives] builds from one
    match. *)
Definition called_by_native_of_match (m : rematch) : result CalledByNative :=
  params <- Parse (group_str m "params") ;;
  Ok (CalledByNative.__init__
        false
        (str_in "Unchecked" (group_str m "Unchecked"))
        (str_in "static" (group_str m "prefix"))
        (default "" (group m "annotation"))
        (group_str m "return_type")
        (group_str m "name")
        params
        None
        false).

(** [zip(l, l[1:])] *)
Definition adjacent_pairs {A : Type} (l : list A) : list (A * A) :=
  zip l (tail l).

(** [ExtractCalledByNatives]: parses all methods annotated with
    [@CalledByNative]. *)
Definition ExtractCalledByNatives (j : JniParams) (contents : string)
  : result (list CalledByNative) :=
  called_by_natives <-
    for_each called_by_native_of_match (finditer RE_CALLED_BY_NATIVE contents) ;;
  (* Check for any @CalledByNative occurrences that weren't matched. *)
  let unmatched_lines :=
    str_split NL (re_sub RE_CALLED_BY_NATIVE (fun _ => "") contents) in
  match find (fun '(line1, _) => str_in "@CalledByNative" line1)
             (adjacent_pairs unmatched_lines) with
  | Some (line1, line2) =>
      Raise (ParseError "could not parse @CalledByNative method signature"
                        [line1; line2])
  | None => MangleCalledByNatives j called_by_natives
  end.

(** ** The header generator *)

(** The options of the command line that the embedded code reads. *)
Record Options : Type := {
  namespace : option string;
  ptr_type : string;
  native_exports_optional : bool;
  optimize_generation : Z;
  script_name : string;
  includes : option string
}.

(** [class ConstantField] *)
Record ConstantField : Type := { cf_name : string; cf_value : string }.

(** The attributes of [class InlHeaderFileGenerator]. *)
Record InlHeaderFileGenerator : Type := {
  g_namespace : option string;
  fully_qualified_class : string;
  class_name : string;
  natives : list NativeMethod;
  called_by_natives : list CalledByNative;
  header_guard : string;
  constant_fields : list ConstantField;
  options : Options
}.

(** [InlHeaderFileGenerator.__init__] *)
Definition InlHeaderFileGenerator__init__ (namespace : option string)
    (fully_qualified_class : string) (natives : list NativeMethod)
    (called_by_natives : list CalledByNative) (constant_fields : list ConstantField)
    (options : Options) : InlHeaderFileGenerator :=
  {| g_namespace := namespace;
     fully_qualified_class := fully_qualified_class;
     class_name := default "" (from_end 1 (str_split "/" fully_qualified_class));
     natives := natives;
     called_by_natives := called_by_natives;
     header_guard := str_replace "/" "_" fully_qualified_class +:+ "_JNI";
     constant_fields := constant_fields;
     options := options |}.

(** [GetStubName]: the name of the stub function for this native method,
    the template [Java_${JAVA_NAME}_native${NAME}]. *)
Definition GetStubName (g : InlHeaderFileGenerator) (native : NativeMethod) : string :=
  let java_name :=
    str_replace "/" "_" (str_replace "_" "_1" (fully_qualified_class g)) in
  let java_name :=
    if truthy (NativeMethod.java_class_name native)
    then java_name +:+ "_00024" +:+ default "" (NativeMethod.java_class_name native)
    else java_name in
  "Java_" +:+ java_name +:+ "_native" +:+ NativeMethod.name native.

(** [GetUniqueClasses] reads [entry.java_class_name] of native methods
    and of called-by-native methods alike; [None] and [''] count as
    absent. *)
Class Entry (A : Type) : Type := entry_java_class_name : A -> string.

#[export] Instance native_entry : Entry NativeMethod :=
  fun n => default "" (NativeMethod.java_class_name n).
#[export] Instance called_by_native_entry : Entry CalledByNative :=
  CalledByNative.java_class_name.

(** [GetUniqueClasses]: the dict from class name to JNI class path. *)
Definition GetUniqueClasses {A : Type} `{Entry A} (g : InlHeaderFileGenerator)
    (origin : list A) : gmap string string :=
  foldl (fun ret entry =>
           let java_class_name := entry_java_class_name entry in
           if String.eqb java_class_name "" then
             <[class_name g := fully_qualified_class g]> ret
           else
             <[java_class_name :=
                 fully_qualified_class g +:+ "$" +:+ java_class_name]> ret)
        {[class_name g := fully_qualified_class g]} origin.

(** The dict [all_classes] of [GetClassPathDefinitions];
    [d.update(e)] keeps the entries of [e] where both have one. *)
Definition all_classes (g : InlHeaderFileGenerator) : gmap string string :=
  let all_classes := GetUniqueClasses g (called_by_natives g) in
  if native_exports_optional (options g)
  then GetUniqueClasses g (natives g) ∪ all_classes
  else all_classes.

(** The two templates of [GetClassPathDefinitions].  In the second one the
    script ends two lines with a backslash inside a triple-quoted string,
    which joins them to the next line. *)
Definition class_path_constant (JAVA_CLASS JNI_CLASS_PATH : string) : string :=
  "const char k" +:+ JAVA_CLASS +:+ "ClassPath[] = " +:+ DQ +:+ JNI_CLASS_PATH
  +:+ DQ +:+ ";".

Definition class_handle (JAVA_CLASS : string) : string :=
  "// Leaking this jclass as we cannot use LazyInstance from some threads." +:+ NL
  +:+ "base::subtle::AtomicWord g_" +:+ JAVA_CLASS
  +:+ "_clazz __attribute__((unused)) = 0;" +:+ NL
  +:+ "#define " +:+ JAVA_CLASS +:+ "_clazz(env) "
  +:+ "base::android::LazyGetClass(env, k" +:+ JAVA_CLASS +:+ "ClassPath, "
  +:+ "&g_" +:+ JAVA_CLASS +:+ "_clazz)".

(** The classes for which [GetClassPathDefinitions] instantiates each of
    its two templates, in the order of the dict. *)
Definition class_path_entries (g : InlHeaderFileGenerator) : list (string * string) :=
  map_to_list (all_classes g).

(** The items of [ret] that come from the first and from the second
    loop. *)
Definition class_path_constants (g : InlHeaderFileGenerator) : list string :=
  map (fun '(clazz, path) => class_path_constant clazz path) (class_path_entries g).

Definition class_handles (g : InlHeaderFileGenerator) : list string :=
  map (fun '(clazz, _) => class_handle clazz) (class_path_entries g).

(** [GetClassPathDefinitions]: the ClassPath constants.  [ret += '']
    between the two loops adds nothing. *)
Definition GetClassPathDefinitions (g : InlHeaderFileGenerator) : string :=
  str_join NL (class_path_constants g ++ class_handles g).

(** [JNIFromJavaSource._comment_remover_regex], compiled with
    [re.DOTALL | re.MULTILINE]; with Q for the double quote it reads
    [//.*?$ | /\*.*?\*/ | \'(?:\\.|[^\\\'])*\' | Q(?:\\.|[^\\Q])*Q]. *)
Definition _comment_remover_regex : regex :=
  Alt (Seq [Lit "//"; Star lazy dot_all; EolM])
 (Alt (Seq [Lit "/*"; Star lazy dot_all; Lit "*/"])
 (Alt (Seq [Lit (String squote "");
            Star greedy (Alt (Seq [Lit (String backslash ""); dot_all])
                             (none_of [backslash; squote]));
            Lit (String squote "")])
      (Seq [Lit DQ;
            Star greedy (Alt (Seq [Lit (String backslash ""); dot_all])
                             (none_of [backslash; dquote]));
            Lit DQ]))).

(** [JNIFromJavaSource._RemoveComments]: comments go, literals stay. *)
Definition _RemoveComments (contents : string) : string :=
  re_sub _comment_remover_regex
         (fun s => if startswith s "/" then "" else s) contents.

(** The state of the file system and of standard output that
    [GenerateJNIHeader] reads and changes. *)
Record World : Type := {
  files : gmap string string;
  dirs : gset string;
  stdout : list string
}.

(** How a run ends: it returns, it calls [sys.exit], or an exception
    leaves it uncaught. *)
Inductive outcome : Type :=
| Returned
| SystemExit (status : Z)
| Uncaught (e : exn).

(** The exit status of the process: an uncaught exception makes the
    interpreter exit with 1. *)
Definition exit_status (o : outcome) : Z :=
  match o with
  | Returned => 0
  | SystemExit status => status
  | Uncaught _ => 1
  end.

(** [ParseError.__str__] *)
Definition ParseError__str__ (description : string) (context_lines : list string)
  : string :=
  let context := str_join NL context_lines in
  "***" +:+ NL +:+ "ERROR: " +:+ description +:+ NL +:+ NL +:+ context +:+ NL +:+ "***".

Definition exists_path (w : World) (p : string) : bool :=
  bool_decide (p ∈ dom (files w)) || bool_decide (p ∈ dirs w).

Definition print (s : string) (w : World) : World :=
  {| files := files w; dirs := dirs w; stdout := stdout w ++ [s] |}.

(** [os.makedirs(d)]: [d] and the directories above it come to exist. *)
Fixpoint ancestors (rounds : nat) (d : string) : list string :=
  match rounds with
  | O => []
  | S n => if String.eqb d "" || all_slashes d then []
           else d :: ancestors n (dirname d)
  end.

Definition makedirs (d : string) (w : World) : World :=
  {| files := files w;
     dirs := dirs w ∪ list_to_set (ancestors (String.length d) d);
     stdout := stdout w |}.

(** [with file(p, 'w') as f: f.write(content)] *)
Definition write_file (p content : string) (w : World) : World * outcome :=
  if bool_decide (p ∈ dirs w) then (w, Uncaught (IOError p))
  else ({| files := <[p := content]> (files w); dirs := dirs w; stdout := stdout w |},
        Returned).

Section Generator.

(** [InlHeaderFileGenerator.GetContent], the assembly of the whole
    header from its sections and the line wrapping, is not embedded;
    it may raise, since it resolves the types of every method. *)
Variable GetContent : JniParams -> InlHeaderFileGenerator -> result string.

(** [JNIFromJavaP.CreateFromClass(input_file, options).GetContent()],
    which runs the external [javap] tool, is not embedded either. *)
Variable JNIFromJavaP_content : World -> string -> Options -> result string.

(** [os.path.abspath], which depends on the working directory. *)
Variable abspath : string -> string.

(** [JNIFromJavaSource.__init__]; the result is [self.content].  [j] is
    the state of [JniParams] when the constructor is entered. *)
Definition JNIFromJavaSource__init__ (j : JniParams) (contents : string)
    (fully_qualified_class : string) (options : Options) : result string :=
  let contents := _RemoveComments contents in
  let j := SetFullyQualifiedClass fully_qualified_class j in
  j <- ExtractImportsAndInnerClasses contents j ;;
  let jni_namespace :=
    match ExtractJNINamespace contents with
    | EmptyString => namespace options
    | ns => Some ns
    end in
  natives <- ExtractNatives contents (ptr_type options) ;;
  called_by_natives <- ExtractCalledByNatives j contents ;;
  if (length natives =? 0)%nat && (length called_by_natives =? 0)%nat then
    Raise (SyntaxError ("Unable to find any JNI methods for "
                        +:+ fully_qualified_class +:+ "."))
  else
    let inl_header_file_generator :=
      InlHeaderFileGenerator__init__ jni_namespace fully_qualified_class
        natives called_by_natives [] options in
    GetContent j inl_header_file_generator.

(** [JNIFromJavaSource.CreateFromFile] followed by [GetContent] *)
Definition CreateFromFile (j : JniParams) (w : World) (java_file_name : string)
    (options : Options) : result string :=
  match files w !! java_file_name with
  | None => Raise (IOError java_file_name)
  | Some contents =>
      fully_qualified_class <-
        ExtractFullyQualifiedJavaClassName java_file_name contents ;;
      JNIFromJavaSource__init__ j contents fully_qualified_class options
  end.

(** The body of the [try] of [GenerateJNIHeader]. *)
Definition generate_content (j : JniParams) (w : World) (input_file : string)
    (options : Options) : result string :=
  if String.eqb (snd (splitext input_file)) ".class"
  then JNIFromJavaP_content w input_file options
  else CreateFromFile j w input_file options.

(** [GenerateJNIHeader] *)
Definition GenerateJNIHeader (j : JniParams) (input_file : string)
    (output_file : option string) (options : Options) (w : World)
  : World * outcome :=
  match generate_content j w input_file options with
  | Raise (ParseError description context_lines) =>
      (print (ParseError__str__ description context_lines) w, SystemExit 1)
  | Raise e => (w, Uncaught e)
  | Ok content =>
      if truthy output_file then
        let output_file := default "" output_file in
        let w := if negb (exists_path w (dirname (abspath output_file)))
                 then makedirs (dirname (abspath output_file)) w else w in
        if negb (optimize_generation options =? 0)%Z && exists_path w output_file then
          match files w !! output_file with
          | None => (w, Uncaught (IOError output_file))
          | Some existing_content =>
              if String.eqb existing_content content then (w, Returned)
              else write_file output_file content w
          end
        else write_file output_file content w
      else (print content w, Returned)
  end.

End Generator.

(** ** Auxiliary definitions and the inputs of the examples *)

(** The last character of a string. *)
Fixpoint last_char (s : string) : option ascii :=
  match s with
  | EmptyString => None
  | String a EmptyString => Some a
  | String _ s' => last_char s'
  end.

(** A file of the package [org.chromium.foo], used in examples. *)
Definition example_params : JniParams :=
  SetFullyQualifiedClass "org/chromium/foo/Foo"
    {| _imports := []; _fully_qualified_class := ""; _package := "";
       _inner_classes := []; _implicit_imports := [] |}.

(** The width of a native pointer and the value of [--ptr_type] for it:
    for 32-bit, use int; for 64-bit, use long. *)
Inductive pointer_width : Type := Bits32 | Bits64.

Definition ptr_type_of (w : pointer_width) : string :=
  match w with
  | Bits32 => "int"
  | Bits64 => "long"
  end.

(** A class with the one declaration
    [native void nativeDestroy(T nativeFoo)]. *)
Definition destroy_source (T : string) : string :=
  str_join NL
    [ "package org.chromium.foo;";
      "class Foo {";
      "  private native void nativeDestroy(" +:+ T +:+ " nativeFoo);";
      "}" ].

(** Two overloads of [update] whose parameter types are two imported
    classes. *)
Definition overloads_source : string :=
  str_join NL
    [ "package org.chromium.foo;";
      "import android.graphics.Rect;";
      "import android.graphics.Region;";
      "class Foo {";
      "  @CalledByNative";
      "  void update(Rect r) {}";
      "  @CalledByNative";
      "  void update(Region r) {}";
      "}" ].

(** Two overloads of [open], one of them taking a [java.net.URL]. *)
Definition url_source : string :=
  str_join NL
    [ "package org.chromium.foo;";
      "import java.net.URL;";
      "class Foo {";
      "  @CalledByNative";
      "  void open(URL u) {}";
      "  @CalledByNative";
      "  void open(String s) {}";
      "}" ].

(** The state of [JniParams] in a fresh process whose table of implicit
    imports has the given lines. *)
Definition fresh_params (table : list string) : JniParams :=
  {| _imports := []; _fully_qualified_class := ""; _package := "";
     _inner_classes := []; _implicit_imports := table |}.

(** The state after [SetFullyQualifiedClass] and
    [ExtractImportsAndInnerClasses] on a source of class
    [org.chromium.foo.Foo]. *)
Definition params_of_source (table : list string) (contents : string)
  : result JniParams :=
  ExtractImportsAndInnerClasses contents
    (SetFullyQualifiedClass "org/chromium/foo/Foo" (fresh_params table)).

(** The characters a C identifier may have. *)
Definition is_identifier_char (c : ascii) : bool :=
  is_digit c || is_lower c || is_upper c || Ascii.eqb c "_".

Definition is_identifier (s : string) : bool := forallb is_identifier_char (chars s).

(** A file that imports a nested class directly and declares a native
    method that does not mention it. *)
Definition inner_import_source : string :=
  str_join NL
    [ "package org.chromium.foo;";
      "import org.chromium.bar.Outer.Inner;";
      "class Foo {";
      "  private native void nativeInit(int x);";
      "}" ].

Definition example_options : Options :=
  {| namespace := None; ptr_type := "int"; native_exports_optional := false;
     optimize_generation := 0; script_name := "jni_generator.py"; includes := None |}.

(** A table of implicit imports with one class, as a line of
    [android_jar.classes]. *)
Definition example_table : list string := ["java/util/List.class" +:+ NL].

(** A stand-in for [GetContent] in examples: it resolves the signature of
    every native method, as [GetKMethodArrayEntry] does, and of every
    called-by-native method, as [GetMethodIDImpl] does, and returns the
    class path definitions alone. *)
Definition example_GetContent (j : JniParams) (g : InlHeaderFileGenerator)
  : result string :=
  _ <- for_each (fun n => Signature j (NativeMethod.params n)
                            (NativeMethod.return_type n) true) (natives g) ;;
  _ <- for_each (fun c => Signature j (CalledByNative.params c)
                            (CalledByNative.return_type c) true)
                (called_by_natives g) ;;
  Ok (GetClassPathDefinitions g).

(** A stand-in for the [javap] path in examples: the tool is absent. *)
Definition example_javap (w : World) (input_file : string) (o : Options)
  : result string :=
  Raise (IOError "javap").

(** Two native methods of the nested class [Inner] and two methods of the
    nested class [Helper] that native code calls. *)
Definition native_call_source : string :=
  str_join NL
    [ "package org.chromium.foo;";
      "class Foo {";
      "  @NativeCall(" +:+ DQ +:+ "Inner" +:+ DQ +:+ ")";
      "  private native void nativeInit();";
      "  @NativeCall(" +:+ DQ +:+ "Inner" +:+ DQ +:+ ")";
      "  private native void nativeStop();";
      "  @CalledByNative(" +:+ DQ +:+ "Helper" +:+ DQ +:+ ")";
      "  void a() {}";
      "  @CalledByNative(" +:+ DQ +:+ "Helper" +:+ DQ +:+ ")";
      "  void b() {}";
      "  class Inner {}";
      "}" ].

(** The classes that the declarations of the model refer to, in the words
    of the data model: the class of the file and every enclosing class
    named by a native or a called-by-native declaration. *)
Definition referenced_classes (g : InlHeaderFileGenerator) : list string :=
  class_name g
  :: List.filter (fun c => negb (String.eqb c ""))
                 (map entry_java_class_name (natives g))
  ++ List.filter (fun c => negb (String.eqb c ""))
                 (map entry_java_class_name (called_by_natives g)).

(** The classes for which a constant and a handle are emitted. *)
Definition emitted_classes (g : InlHeaderFileGenerator) : list string :=
  map fst (class_path_entries g).

(** An annotation that no method follows. *)
Definition broken_source : string :=
  str_join NL
    [ "package org.chromium.foo;";
      "class Foo {";
      "  @CalledByNative";
      "  int broken;";
      "}" ].

(** A native method with a parameter of the type [List], which is not
    imported. *)
Definition ambiguous_source : string :=
  str_join NL
    [ "package org.chromium.foo;";
      "class Foo {";
      "  private native void nativeInit(List items);";
      "}" ].

(** A native method whose name has [native] in its middle too. *)
Definition alternative_source : string :=
  str_join NL
    [ "package org.chromium.foo;";
      "class Foo {";
      "  private native void nativeUpdateAlternative(long nativeFoo);";
      "}" ].

(** A class without any JNI method. *)
Definition plain_source : string :=
  str_join NL
    [ "package org.chromium.foo;";
      "class Foo {";
      "  int size;";
      "}" ].

Definition world_with (path contents : string) : World :=
  {| files := {[ path := contents ]}; dirs := ∅; stdout := [] |}.



(** The number of called-by-native declarations with the enclosing class
    and the name of [c]. *)
Definition same_method (java_class_name name : string) (c : CalledByNative) : bool :=
  String.eqb (CalledByNative.java_class_name c) java_class_name
  && String.eqb (CalledByNative.name c) name.

Definition overloads (cs : list CalledByNative) (c : CalledByNative) : nat :=
  length (List.filter (same_method (CalledByNative.java_class_name c)
                                   (CalledByNative.name c)) cs).

(** A source whose header can be generated. *)
Definition plain_native_source : string := destroy_source "long".

(** A generator for two called-by-native methods of the nested class
    [Helper]. *)
Definition helper_generator : InlHeaderFileGenerator :=
  InlHeaderFileGenerator__init__ None "org/chromium/foo/Foo" []
    [ CalledByNative.__init__ false false false "Helper" "void" "a" [] None false;
      CalledByNative.__init__ false false false "Helper" "void" "b" [] None false ]
    [] example_options.

(** A world whose input file has the annotation that no method follows,
    and the error that its extraction raises. *)
Definition broken_world : World := world_with "Foo.java" broken_source.

Definition broken_error : exn :=
  ParseError "could not parse @CalledByNative method signature"
             ["  @CalledByNative"; "  int broken;"].

(** ** C types of Java types *)

(** [RE_SCOPED_JNI_TYPES]: [jobject|jclass|jstring|jthrowable|.*Array], the
    JNI types that should be wrapped in a JavaRef. *)
Definition RE_SCOPED_JNI_TYPES : regex :=
  Alt (Lit "jobject")
 (Alt (Lit "jclass")
 (Alt (Lit "jstring")
 (Alt (Lit "jthrowable")
      (Seq [Star greedy dot; Lit "Array"])))).

Definition java_pod_type_map : list (string * string) :=
  [ ("int", "jint"); ("byte", "jbyte"); ("char", "jchar"); ("short", "jshort");
    ("boolean", "jboolean"); ("long", "jlong"); ("double", "jdouble");
    ("float", "jfloat") ].

Definition java_type_map : list (string * string) :=
  [ ("void", "void"); ("String", "jstring"); ("Throwable", "jthrowable");
    ("java/lang/String", "jstring"); ("java/lang/Class", "jclass");
    ("java/lang/Throwable", "jthrowable") ].

(** [JavaDataTypeToC]: a C datatype for the given java type. *)
Definition JavaDataTypeToC (java_type : string) : string :=
  match assoc java_type java_pod_type_map with
  | Some c => c
  | None =>
      match assoc java_type java_type_map with
      | Some c => c
      | None =>
          if endswith java_type "[]" then
            match assoc (str_drop_last 2 java_type) java_pod_type_map with
            | Some c => c +:+ "Array"
            | None => "jobjectArray"
            end
          else if startswith java_type "Class" then
            (* Checking just the start of the name, rather than a direct
               comparison, in order to handle generics. *)
            "jclass"
          else "jobject"
      end
  end.

(** [WrapCTypeForDeclaration]: wrap the C datatype in a JavaRef if
    required. *)
Definition WrapCTypeForDeclaration (c_type : string) : string :=
  if re_match RE_SCOPED_JNI_TYPES c_type
  then "const base::android::JavaParamRef<" +:+ c_type +:+ ">&"
  else c_type.

(** [JavaDataTypeToCForDeclaration] *)
Definition JavaDataTypeToCForDeclaration (java_type : string) : string :=
  WrapCTypeForDeclaration (JavaDataTypeToC java_type).

(** [JavaDataTypeToCForCalledByNativeParam]: a C datatype to be used when
    calling from native. *)
Definition JavaDataTypeToCForCalledByNativeParam (java_type : string) : string :=
  if String.eqb java_type "int" then "JniIntWrapper"
  else
    let c_type := JavaDataTypeToC java_type in
    if re_match RE_SCOPED_JNI_TYPES c_type
    then "const base::android::JavaRefOrBare<" +:+ c_type +:+ ">&"
    else c_type.

(** [JavaReturnValueToC]: a valid C return value for the given java
    type. *)
Definition JavaReturnValueToC (java_type : string) : string :=
  let java_pod_type_map : list (string * string) :=
    [ ("int", "0"); ("byte", "0"); ("char", "0"); ("short", "0");
      ("boolean", "false"); ("long", "0"); ("double", "0"); ("float", "0");
      ("void", "") ] in
  default "NULL" (assoc java_type java_pod_type_map).

(** ** Registration of the native methods *)

(** [GetKMethodArrayEntry] *)
Definition GetKMethodArrayEntry (j : JniParams) (g : InlHeaderFileGenerator)
    (native : NativeMethod) : result string :=
  JNI_SIGNATURE <- Signature j (NativeMethod.params native)
                     (NativeMethod.return_type native) true ;;
  Ok ("    { " +:+ DQ +:+ "native" +:+ NativeMethod.name native +:+ DQ +:+ ", "
      +:+ JNI_SIGNATURE +:+ ", "
      +:+ "reinterpret_cast<void*>(" +:+ GetStubName g native +:+ ") },").

(** The test of [GetKMethodsString]: [native.java_class_name == clazz or
    (not native.java_class_name and clazz == self.class_name)]. *)
Definition native_of_class (g : InlHeaderFileGenerator) (clazz : string)
    (native : NativeMethod) : bool :=
  match NativeMethod.java_class_name native with
  | Some c => String.eqb c clazz
  | None => false
  end
  || (negb (truthy (NativeMethod.java_class_name native))
      && String.eqb clazz (class_name g)).

(** [GetKMethodsString] *)
Definition GetKMethodsString (j : JniParams) (g : InlHeaderFileGenerator)
    (clazz : string) : result string :=
  ret <- for_each (GetKMethodArrayEntry j g)
                  (List.filter (native_of_class g clazz) (natives g)) ;;
  Ok (str_join NL ret).

(** [SubstituteNativeMethods]: substitutes JAVA_CLASS and KMETHODS in the
    provided template, one instance for each class that has native
    methods. *)
Definition SubstituteNativeMethods (j : JniParams) (g : InlHeaderFileGenerator)
    (template : string -> string -> string) : result string :=
  let all_classes :=
    <[class_name g := fully_qualified_class g]> (GetUniqueClasses g (natives g)) in
  ret <- for_state
           (fun ret clazz =>
              kmethods <- GetKMethodsString j g clazz ;;
              if String.eqb kmethods "" then Ok ret
              else Ok (ret ++ [template clazz kmethods]))
           (map fst (map_to_list all_classes)) [] ;;
  match ret with
  | [] => Ok ""
  | _ => Ok (NL +:+ str_join NL ret)
  end.

(** The template of [GetJNINativeMethodsString]. *)
Definition kmethods_template (JAVA_CLASS KMETHODS : string) : string :=
  "static const JNINativeMethod kMethods" +:+ JAVA_CLASS +:+ "[] = {" +:+ NL
  +:+ KMETHODS +:+ NL
  +:+ "};" +:+ NL.

(** [GetJNINativeMethodsString]: the implementation of the array of
    native methods. *)
Definition GetJNINativeMethodsString (j : JniParams) (g : InlHeaderFileGenerator)
  : result string :=
  if negb (native_exports_optional (options g)) then Ok ""
  else SubstituteNativeMethods j g kmethods_template.

(** The template of [GetRegisterNativesImplString], which does not use
    KMETHODS. *)
Definition register_template (JAVA_CLASS KMETHODS : string) : string :=
  "  const int kMethods" +:+ JAVA_CLASS +:+ "Size = arraysize(kMethods"
  +:+ JAVA_CLASS +:+ ");" +:+ NL
  +:+ NL
  +:+ "  if (env->RegisterNatives(" +:+ JAVA_CLASS +:+ "_clazz(env)," +:+ NL
  +:+ "                           kMethods" +:+ JAVA_CLASS +:+ "," +:+ NL
  +:+ "                           kMethods" +:+ JAVA_CLASS +:+ "Size) < 0) {" +:+ NL
  +:+ "    jni_generator::HandleRegistrationError(" +:+ NL
  +:+ "        env, " +:+ JAVA_CLASS +:+ "_clazz(env), __FILE__);" +:+ NL
  +:+ "    return false;" +:+ NL
  +:+ "  }" +:+ NL.

(** [GetRegisterNativesImplString]: the shared implementation for
    RegisterNatives. *)
Definition GetRegisterNativesImplString (j : JniParams) (g : InlHeaderFileGenerator)
  : result string :=
  if negb (native_exports_optional (options g)) then Ok ""
  else SubstituteNativeMethods j g register_template.

(** [GetRegisterNativesString]: the code for RegisterNatives. *)
Definition GetRegisterNativesString (j : JniParams) (g : InlHeaderFileGenerator)
  : result string :=
  natives <- GetRegisterNativesImplString j g ;;
  if String.eqb natives "" then Ok ""
  else
    let signature := "static bool RegisterNativesImpl(JNIEnv* env)" in
    let early_exit :=
      if native_exports_optional (options g)
      then "  if (base::android::IsManualJniRegistrationDisabled()) return true;"
           +:+ NL
      else "" in
    Ok (signature +:+ " {" +:+ NL
        +:+ early_exit +:+ NL
        +:+ natives +:+ NL
        +:+ "  return true;" +:+ NL
        +:+ "}" +:+ NL).

(** The [assert] of [GetContent] on the two values above. *)
Definition registration_assert (JNI_NATIVE_METHODS REGISTER_NATIVES : string) : bool :=
  Bool.eqb (String.eqb JNI_NATIVE_METHODS "") (String.eqb REGISTER_NATIVES "").

(** The escaping of the class name in [GetStubName]:
    [replace('_', '_1').replace('/', '_')]. *)
Definition escape_class (fully_qualified_class : string) : string :=
  str_replace "/" "_" (str_replace "_" "_1" fully_qualified_class).

(** Reading an escaped class name back: an underscore before a [1] was
    an underscore, any other underscore was a slash. *)
Fixpoint unescape_class (s : string) : string :=
  match s with
  | EmptyString => EmptyString
  | String c s' =>
      if Ascii.eqb c "_" then
        match s' with
        | String "1" s'' => String "_" (unescape_class s'')
        | _ => String "/" (unescape_class s')
        end
      else String c (unescape_class s')
  end.



(** The state of [JniParams] only grows: [extends j j'] says that [j']
    has the imports and the inner classes of [j], possibly followed by
    more, and the same class, package and table. *)
Definition extends (j j' : JniParams) : Prop :=
  (exists added, _imports j' = _imports j ++ added)
  /\ (exists added, _inner_classes j' = _inner_classes j ++ added)
  /\ _fully_qualified_class j' = _fully_qualified_class j
  /\ _package j' = _package j
  /\ _implicit_imports j' = _implicit_imports j.





(** The java types that are passed by value: the primitive types and
    [void]. *)
Definition is_pod_or_void (java_type : string) : bool :=
  match assoc java_type java_pod_type_map with
  | Some _ => true
  | None => String.eqb java_type "void"
  end.
(** A generator with explicit registration for the native methods of the
    file [Foo] with the declaration of [nativeDestroy]. *)
Definition registering_options : Options :=
  {| namespace := None; ptr_type := "long"; native_exports_optional := true;
     optimize_generation := 1; script_name := "jni_generator.py"; includes := None |}.

Definition registering_generator : InlHeaderFileGenerator :=
  InlHeaderFileGenerator__init__ None "org/chromium/foo/Foo"
    [ NativeMethod.__init__ false None None "void" "Destroy"
        [Param.Param "long" "nativeFoo"] (Some "long") None ]
    [] [] registering_options.



(** The characters that a list of tokens stands for, and what [re.sub]
    makes of it. *)
Definition token_chars (t : token) : list ascii :=
  match t with
  | TChar a => [a]
  | TMatch m => chars (m_text m)
  end.

(** [n] array markers of a descriptor. *)
Fixpoint brackets (n : nat) : string :=
  match n with
  | O => ""
  | S n' => "[" +:+ brackets n'
  end.

(** * Properties *)

(** ** Strings *)

Lemma append_nil_l (s : string) : "" +:+ s = s.
Proof. reflexivity. Qed.

Lemma append_cons (a : ascii) (s t : string) :
  String a s +:+ t = String a (s +:+ t).
Proof. reflexivity. Qed.

Lemma append_empty_r (s : string) : s +:+ "" = s.
Proof.
  induction s as [|a s IH]; [reflexivity|]. now rewrite append_cons, IH.
Qed.

Lemma append_assoc (a b c : string) : (a +:+ b) +:+ c = a +:+ (b +:+ c).
Proof.
  induction a as [|x a IH]; [reflexivity|]. now rewrite !append_cons, IH.
Qed.

Lemma length_append (a b : string) :
  String.length (a +:+ b) = (String.length a + String.length b)%nat.
Proof.
  induction a as [|x a IH]; [reflexivity|]. rewrite append_cons. simpl.
  now rewrite IH.
Qed.

Lemma endswith_unfold (s suf : string) :
  endswith s suf
  = if String.eqb s suf then true
    else match s with
         | EmptyString => false
         | String _ s' => endswith s' suf
         end.
Proof. destruct s; reflexivity. Qed.

Lemma endswith_refl (s : string) : endswith s s = true.
Proof. now rewrite endswith_unfold, String.eqb_refl. Qed.

(** [endswith] holds exactly when the string is something followed by the
    suffix. *)
Lemma endswith_spec (s suf : string) :
  endswith s suf = true <-> exists pre, s = pre +:+ suf.
Proof.
  split.
  - induction s as [|a s IH]; rewrite endswith_unfold.
    + destruct (String.eqb_spec "" suf) as [<-|]; [|discriminate].
      intros _. now exists "".
    + destruct (String.eqb_spec (String a s) suf) as [<-|_].
      * intros _. now exists "".
      * intros H. destruct (IH H) as [pre ->]. now exists (String a pre).
  - intros [pre ->]. induction pre as [|a pre IH].
    + apply endswith_refl.
    + rewrite append_cons, endswith_unfold, IH. now destruct (String.eqb _ _).
Qed.

Lemma str_take_drop (n : nat) (s : string) : str_take n s +:+ str_drop n s = s.
Proof.
  revert s. induction n as [|n IH]; intros [|a s]; simpl; try reflexivity.
  now rewrite append_cons, IH.
Qed.

Lemma last_char_append (a b : string) :
  b <> "" -> last_char (a +:+ b) = last_char b.
Proof.
  intros Hb. induction a as [|x a IH]; [reflexivity|].
  rewrite append_cons. simpl. rewrite IH.
  destruct (a +:+ b) eqn:E; [|reflexivity].
  destruct a; [now rewrite append_nil_l in E | now rewrite append_cons in E].
Qed.

(** A string whose last two characters are the array marker ends with
    it. *)
Lemma str_last_array (s : string) :
  str_last 2 s = "[]" -> s = str_drop_last 2 s +:+ "[]".
Proof.
  unfold str_last, str_drop_last. intros H.
  rewrite <- H. symmetry. apply str_take_drop.
Qed.

Lemma str_last_generic (t mid : string) :
  str_last 2 (t +:+ "<" +:+ mid +:+ ">") <> "[]".
Proof.
  intros H. apply str_last_array in H.
  assert (E : last_char (t +:+ "<" +:+ mid +:+ ">") = Some ">"%char).
  { rewrite last_char_append by discriminate.
    change ("<" +:+ mid +:+ ">") with (String "<" (mid +:+ ">")).
    transitivity (last_char (mid +:+ ">")).
    - simpl. destruct (mid +:+ ">") eqn:E; [|reflexivity].
      destruct mid; discriminate.
    - now rewrite last_char_append. }
  rewrite H in E. rewrite last_char_append in E by discriminate.
  discriminate.
Qed.

Lemma length_str_take (n : nat) (s : string) :
  String.length (str_take n s) = Nat.min n (String.length s).
Proof.
  revert s. induction n as [|n IH]; intros [|a s]; simpl; try reflexivity.
  now rewrite IH.
Qed.

(** The bound on the rounds of the loop of [JavaToJni] is never what
    ends it: the element type it leaves has no trailing array marker. *)
Lemma strip_arrays_loop_done (rounds : nat) (prefix param : string) :
  (String.length param <= rounds)%nat ->
  str_last 2 (snd (strip_arrays_loop rounds prefix param)) <> "[]".
Proof.
  revert prefix param. induction rounds as [|n IH]; intros prefix param Hlen.
  - destruct param; [discriminate | simpl in Hlen; lia].
  - cbn [strip_arrays_loop].
    destruct (String.eqb_spec (str_last 2 param) "[]") as [E|E]; [|exact E].
    apply IH. unfold str_drop_last. rewrite length_str_take.
    destruct param; [discriminate | simpl in *; lia].
Qed.

Lemma strip_arrays_done (param : string) :
  str_last 2 (snd (strip_arrays param)) <> "[]".
Proof. apply strip_arrays_loop_done. lia. Qed.

(** Without a trailing array marker the loop of [JavaToJni] does not
    run. *)
Lemma strip_arrays_none (s : string) :
  str_last 2 s <> "[]" -> strip_arrays s = ("", s).
Proof.
  intros H. unfold strip_arrays. destruct (String.length s); simpl; [reflexivity|].
  destruct (String.eqb_spec (str_last 2 s) "[]"); [contradiction | reflexivity].
Qed.

Lemma strip_generic_cons (a : ascii) (s : string) :
  strip_generic (String a s)
  = if Ascii.eqb a "<" then "" else String a (strip_generic s).
Proof.
  unfold strip_generic. simpl. destruct (Ascii.eqb a "<"); [reflexivity|].
  destruct (str_find "<" s); reflexivity.
Qed.

(** Text from the first [<] onward does not count. *)
Lemma strip_generic_append (t rest : string) :
  strip_generic (t +:+ String "<" rest) = strip_generic t.
Proof.
  induction t as [|a t IH].
  - reflexivity.
  - change (String a t +:+ String "<" rest) with (String a (t +:+ String "<" rest)).
    rewrite !strip_generic_cons, IH. reflexivity.
Qed.

Lemma JavaToJni_resolve (j : JniParams) (param : string) :
  JavaToJni j param = resolve j (array_prefix param) (element_type param).
Proof.
  unfold JavaToJni, array_prefix, element_type.
  destruct (strip_arrays param); reflexivity.
Qed.

(** ** Type resolution *)

(** C1, the claim as stated fails: for the type name [int[]] and the
    generic suffix [<X>], resolving [int[]<X>] does not give what
    resolving [int[]] gives.  The array markers are looked for at the very
    end only, before the generic suffix is cut. *)
Lemma JavaToJni_generic_after_array_differs :
  JavaToJni example_params "int[]" = Ok "[I"
  /\ JavaToJni example_params ("int[]" +:+ "<X>") = Ok "Lorg/chromium/foo/int[];"
  /\ JavaToJni example_params ("int[]" +:+ "<X>") <> JavaToJni example_params "int[]".
Proof. repeat split; try reflexivity. discriminate. Qed.

(** C1, amended: in every context the resolver maps [int] to [I],
    [int[]] to [[I], [boolean] to [Z], [void] to [V], [String] to
    [Ljava/lang/String;] and [String[]] to [[Ljava/lang/String;]; and for
    every type name [T] that does not itself end with the array marker
    [[]] and every generic suffix [<...>], resolving [T<...>] gives exactly
    what resolving [T] gives, be it a descriptor or an error. *)
Theorem JavaToJni_oracle_and_generic (j : JniParams) :
  JavaToJni j "int" = Ok "I"
  /\ JavaToJni j "int[]" = Ok "[I"
  /\ JavaToJni j "boolean" = Ok "Z"
  /\ JavaToJni j "void" = Ok "V"
  /\ JavaToJni j "String" = Ok "Ljava/lang/String;"
  /\ JavaToJni j "String[]" = Ok "[Ljava/lang/String;"
  /\ forall T mid : string,
       str_last 2 T <> "[]" ->
       JavaToJni j (T +:+ "<" +:+ mid +:+ ">") = JavaToJni j T.
Proof.
  repeat split; try reflexivity.
  intros T mid HT. unfold JavaToJni.
  rewrite (strip_arrays_none T HT).
  rewrite (strip_arrays_none _ (str_last_generic T mid)).
  change ("<" +:+ mid +:+ ">") with (String "<" (mid +:+ ">")).
  now rewrite strip_generic_append.
Qed.

Lemma JavaToJni_oracle_and_generic_witness :
  str_last 2 "Foo" <> "[]"
  /\ JavaToJni example_params ("Foo" +:+ "<" +:+ "Bar" +:+ ">")
     = JavaToJni example_params "Foo".
Proof.
  split; [discriminate|].
  apply (JavaToJni_oracle_and_generic example_params); discriminate.
Defined.

(** ** Classification of native declarations *)

Lemma native_prefix (peer : string) :
  startswith ("native" +:+ peer) "native" = true
  /\ str_drop (String.length "native") ("native" +:+ peer) = peer.
Proof. split; [destruct peer; reflexivity | reflexivity]. Qed.

(** C2: a native declaration whose first parameter has the configured
    pointer type ([long] for 64 bits, [int] for 32 bits, [int] when none
    is given) and a name that starts with [native] is classified as a
    method bound to a peer, whose type is the rest of that name unless
    [@NativeClassQualifiedName] supplies one; a declaration without such a
    first parameter is classified as a free function.  The declaration
    [native void nativeDestroy(long nativeFoo)] under [long], and the same
    with [int] under [int], give the peer type [Foo]. *)
Theorem NativeMethod_classification
    (static : bool) (java_class_name native_class_name : option string)
    (return_type name : string) (params : list Param) (ptr_type : option string)
    (id : option string) :
  let native := NativeMethod.__init__ static java_class_name native_class_name
                  return_type name params ptr_type id in
  (forall (p0 : Param) (rest : list Param) (peer : string),
     params = p0 :: rest ->
     Param.datatype p0 = default "int" ptr_type ->
     Param.name p0 = "native" +:+ peer ->
     NativeMethod.type native = method
     /\ NativeMethod.p0_type native
        = Some (if truthy native_class_name
                then default "" native_class_name else peer))
  /\ (params = []
      \/ (exists (p0 : Param) (rest : list Param),
            params = p0 :: rest
            /\ (Param.datatype p0 <> default "int" ptr_type
                \/ startswith (Param.name p0) "native" = false)) ->
      NativeMethod.type native = function
      /\ NativeMethod.p0_type native = None)
  /\ (forall w : pointer_width,
        exists n : NativeMethod,
          ExtractNatives (destroy_source (ptr_type_of w)) (ptr_type_of w) = Ok [n]
          /\ NativeMethod.type n = method
          /\ NativeMethod.p0_type n = Some "Foo").
Proof.
  cbv zeta. split; [|split].
  - intros p0 rest peer -> Hty Hname. unfold NativeMethod.__init__.
    destruct (native_prefix peer) as [Hp Hd].
    rewrite Hty, String.eqb_refl, Hname, Hp. cbn [andb]. rewrite Hd.
    split; reflexivity.
  - intros [-> | (p0 & rest & -> & H)]; [split; reflexivity|].
    unfold NativeMethod.__init__.
    destruct H as [H | H].
    + destruct (String.eqb_spec (Param.datatype p0) (default "int" ptr_type));
        [contradiction | split; reflexivity].
    + rewrite H, andb_false_r. split; reflexivity.
  - intros [|]; eexists; (split; [vm_compute; reflexivity | split; reflexivity]).
Qed.

Lemma NativeMethod_classification_witness :
  NativeMethod.type
    (NativeMethod.__init__ false None None "void" "Destroy"
       [Param.Param "long" "nativeFoo"] (Some "long") None) = method
  /\ NativeMethod.p0_type
       (NativeMethod.__init__ false None None "void" "Destroy"
          [Param.Param "long" "nativeFoo"] (Some "long") None) = Some "Foo"
  /\ NativeMethod.type
       (NativeMethod.__init__ true None None "void" "Init" [] (Some "long") None)
     = function.
Proof.
  split; [|split].
  - apply (proj1 (NativeMethod_classification false None None "void" "Destroy"
                    [Param.Param "long" "nativeFoo"] (Some "long") None)
             (Param.Param "long" "nativeFoo") [] "Foo"); reflexivity.
  - apply (proj1 (NativeMethod_classification false None None "void" "Destroy"
                    [Param.Param "long" "nativeFoo"] (Some "long") None)
             (Param.Param "long" "nativeFoo") [] "Foo"); reflexivity.
  - apply (proj1 (proj2 (NativeMethod_classification true None None "void" "Init"
                           [] (Some "long") None))).
    left. reflexivity.
Defined.

(** ** Overload mangling *)

(** C3, at the failing input: the two overloads [update(Rect)] and
    [update(Region)] of one class, which differ in their parameter lists,
    both receive the identifier [updateV_AGR]. *)
Theorem MangleCalledByNatives_collision :
  (j <- params_of_source [] overloads_source ;;
   cs <- ExtractCalledByNatives j overloads_source ;;
   Ok (map (fun c => (CalledByNative.java_class_name c, CalledByNative.name c,
                      map Param.datatype (CalledByNative.params c),
                      CalledByNative.method_id_var_name c)) cs))
  = Ok [ ("", "update", ["Rect"], Some "updateV_AGR");
         ("", "update", ["Region"], Some "updateV_AGR") ].
Proof. vm_compute. reflexivity. Qed.

(** C4, at the failing input: the overload [open(URL)] receives the
    identifier [openV_JNURL;], which is returned although the semicolon
    is not a character of an identifier; the [assert] only looks at the
    beginning of the name. *)
Theorem GetMangledMethodName_not_identifier :
  (j <- params_of_source [] url_source ;;
   cs <- ExtractCalledByNatives j url_source ;;
   Ok (map (fun c => (map Param.datatype (CalledByNative.params c),
                      CalledByNative.method_id_var_name c,
                      is_identifier (default "" (CalledByNative.method_id_var_name c))))
           cs))
  = Ok [ (["URL"], Some "openV_JNURL;", false);
         (["String"], Some "openV_JLS", true) ]
  /\ (j <- params_of_source [] url_source ;;
      GetMangledMethodName j "open" [Param.Param "URL" "u"] "void")
     = Ok "openV_JNURL;"
  /\ re_match re_identifier "openV_JNURL;" = true.
Proof. vm_compute. repeat split; reflexivity. Qed.

(** ** Imports *)

Lemma prefix_empty (s : string) : String.prefix "" s = true.
Proof. destruct s; reflexivity. Qed.

Lemma prefix_char (o c : ascii) (s : string) :
  String.prefix (String o "") (String c s) = Ascii.eqb c o.
Proof.
  simpl. rewrite prefix_empty.
  destruct (ascii_dec o c) as [->|Hne].
  - now rewrite Ascii.eqb_refl.
  - symmetry. apply Ascii.eqb_neq. congruence.
Qed.

(** Replacing one character by one character works character by
    character. *)
Lemma replace_char_cons (o n c : ascii) (s : string) :
  str_replace (String o "") (String n "") (String c s)
  = String (if Ascii.eqb c o then n else c)
           (str_replace (String o "") (String n "") s).
Proof.
  unfold str_replace. cbn [replace_from]. rewrite prefix_char.
  destruct (Ascii.eqb c o); reflexivity.
Qed.

Lemma replace_char_append (o n : ascii) (a b : string) :
  str_replace (String o "") (String n "") (a +:+ b)
  = str_replace (String o "") (String n "") a
    +:+ str_replace (String o "") (String n "") b.
Proof.
  induction a as [|c a IH]; [reflexivity|].
  now rewrite append_cons, !replace_char_cons, append_cons, IH.
Qed.

Lemma replace_char_absent (o n : ascii) (s : string) :
  str_in (String o "") s = false ->
  str_replace (String o "") (String n "") s = s.
Proof.
  induction s as [|c s IH]; [reflexivity|].
  cbn [str_in]. rewrite prefix_char, replace_char_cons.
  destruct (Ascii.eqb c o); [discriminate|].
  intros H. now rewrite IH.
Qed.

(** The import of a class of the table matches the simple name of the
    class. *)
Lemma import_matches_simple_name (implicit_import name : string) :
  str_in "." name = false ->
  endswith implicit_import ("." +:+ name) = true ->
  endswith ("L" +:+ str_replace "." "/" implicit_import) ("/" +:+ name) = true.
Proof.
  intros Hdot [pre ->]%endswith_spec. apply endswith_spec.
  exists ("L" +:+ str_replace "." "/" pre).
  rewrite replace_char_append.
  change ("." +:+ name) with (String "." name).
  rewrite replace_char_cons, (replace_char_absent _ _ _ Hdot).
  rewrite append_assoc. reflexivity.
Qed.

Lemma find_app_none {A : Type} (f : A -> bool) (l1 l2 : list A) :
  find f (l1 ++ l2) = None -> find f l1 = None /\ find f l2 = None.
Proof.
  induction l1 as [|x l1 IH]; simpl; [now split|].
  destruct (f x); [discriminate | exact IH].
Qed.

Lemma find_middle {A : Type} (f : A -> bool) (l1 l2 : list A) (x : A) :
  find f l1 = None -> f x = true -> find f (l1 ++ x :: l2) = Some x.
Proof.
  induction l1 as [|y l1 IH]; simpl.
  - intros _ ->. reflexivity.
  - destruct (f y); [discriminate | exact IH].
Qed.

Lemma find_first {A : Type} (f : A -> bool) (l : list A) (x : A) :
  In x l -> f x = true -> exists y, find f l = Some y /\ In y l /\ f y = true.
Proof.
  intros Hin Hx. destruct (find f l) as [y|] eqn:E.
  - exists y. destruct (find_some _ _ E) as [? ?]. auto.
  - rewrite (find_none _ _ E x Hin) in Hx. discriminate.
Qed.

(** The two loops of [ExtractImportsAndInnerClasses] that read the
    imports and the nested classes: every import is recorded as it is
    written. *)
Lemma imports_loop (ms : list rematch) (j : JniParams) :
  let j' := foldl (fun j m => set_imports (_imports j ++ [import_of_match m]) j) j ms in
  _imports j' = _imports j ++ map import_of_match ms.
Proof.
  revert j. induction ms as [|m ms IH]; intros j; simpl.
  - now rewrite app_nil_r.
  - rewrite IH. simpl. now rewrite <- app_assoc.
Qed.

Lemma inner_classes_loop (ms : list rematch) (j : JniParams) :
  let j' := foldl (fun j m =>
                     let inner := group_str m "name" in
                     if negb (endswith (_fully_qualified_class j) inner) then
                       set_inner_classes
                         (_inner_classes j
                          ++ [_fully_qualified_class j +:+ "$" +:+ inner]) j
                     else j) j ms in
  _imports j' = _imports j.
Proof.
  revert j. induction ms as [|m ms IH]; intros j; simpl; [reflexivity|].
  rewrite IH. destruct (negb _); reflexivity.
Qed.

(** C5, the claim as stated fails: a file with the bare import of the
    nested class [org.chromium.bar.Outer.Inner] passes import
    processing, which records the import; its extraction finds the
    native method, whose signature resolves, and the constructor returns
    the generated text.  Only a type that is written [Inner] would be
    refused, when it is resolved. *)
Lemma inner_class_import_accepted :
  is_inner_class_import "Lorg/chromium/bar/Outer/Inner" = Ok true
  /\ (exists j : JniParams,
        params_of_source [] inner_import_source = Ok j
        /\ _imports j = ["Lorg/chromium/bar/Outer/Inner"]
        /\ (ns <- ExtractNatives inner_import_source "int" ;;
            for_each (fun n => Signature j (NativeMethod.params n)
                                 (NativeMethod.return_type n) false) ns)
           = Ok [DQ +:+ "(I)V" +:+ DQ]
        /\ JavaToJni j "Inner"
           = Raise (SyntaxError
                      (inner_class_message "Lorg/chromium/bar/Outer/Inner" "Inner")))
  /\ JNIFromJavaSource__init__ example_GetContent (fresh_params [])
       inner_import_source "org/chromium/foo/Foo" example_options
     = Ok (str_join NL [ class_path_constant "Foo" "org/chromium/foo/Foo";
                         class_handle "Foo" ]).
Proof.
  split; [vm_compute; reflexivity|]. split.
  - eexists. split; [vm_compute; reflexivity|].
    split; [vm_compute; reflexivity|].
    split; vm_compute; reflexivity.
  - vm_compute. reflexivity.
Qed.

(** C5, amended: the bare import of a nested class is not refused when
    the imports are processed; they are all recorded as written (in a
    file without [@JNIAdditionalImport], import processing succeeds).  It
    is refused when a type is resolved whose name reaches the imports and
    first matches, by its last path segment, an import with more than two
    path segments and an uppercase initial in the one before the last:
    resolving that type raises the error that names the import. *)
Theorem inner_class_import_rejected_on_use :
  (forall (contents : string) (j : JniParams),
     _package j <> "" ->
     finditer re_additional_imports (str_replace NL "" contents) = [] ->
     exists j' : JniParams,
       ExtractImportsAndInnerClasses contents j = Ok j'
       /\ _imports j'
          = _imports j
            ++ map import_of_match (finditer re_import (str_replace NL "" contents)))
  /\ (forall (j : JniParams) (param q : string),
        assoc (element_type param) pod_param_map = None ->
        str_in "/" (element_type param) = false ->
        find_known_class j (element_type param) = None ->
        find_import j (element_type param) = Some q ->
        is_inner_class_import q = Ok true ->
        JavaToJni j param
        = Raise (SyntaxError (inner_class_message q (element_type param)))).
Proof.
  split.
  - intros contents j Hpkg Hadd. unfold ExtractImportsAndInnerClasses.
    destruct (String.eqb_spec (_package j) ""); [contradiction|].
    rewrite Hadd. cbn [for_state]. eexists. split; [reflexivity|].
    rewrite inner_classes_loop. apply imports_loop.
  - intros j param q Hpod Hslash Hknown Himp Hinner.
    rewrite JavaToJni_resolve. unfold resolve.
    rewrite Hpod, Hslash, Hknown, Himp, Hinner. reflexivity.
Qed.

Lemma inner_class_import_rejected_on_use_witness :
  (exists j' : JniParams,
     ExtractImportsAndInnerClasses inner_import_source
       (SetFullyQualifiedClass "org/chromium/foo/Foo" (fresh_params [])) = Ok j'
     /\ _imports j' = [] ++ map import_of_match
                              (finditer re_import (str_replace NL "" inner_import_source)))
  /\ JavaToJni (set_imports ["Lorg/chromium/bar/Outer/Inner"] example_params) "Inner[]"
     = Raise (SyntaxError (inner_class_message "Lorg/chromium/bar/Outer/Inner" "Inner")).
Proof.
  split.
  - apply (proj1 inner_class_import_rejected_on_use inner_import_source
             (SetFullyQualifiedClass "org/chromium/foo/Foo" (fresh_params []))).
    + discriminate.
    + vm_compute. reflexivity.
  - apply (proj2 inner_class_import_rejected_on_use
             (set_imports ["Lorg/chromium/bar/Outer/Inner"] example_params)
             "Inner[]" "Lorg/chromium/bar/Outer/Inner");
      vm_compute; reflexivity.
Defined.

(** ** Implicit imports *)

(** C6: a type whose name is not a primitive, has no slash, is no
    well-known, own or inner class, matches no import and has no dot, and
    is the simple name of a class of the table of implicit imports, fails
    to resolve with the ambiguity error.  Once the import of that class
    is added to the imports of the file, the same type resolves to the
    imported binary name as a reference descriptor.  The table is the
    file [android_jar.classes]; of the class concerned it is assumed that
    its import is not of the form which [JavaToJni] takes for a nested
    class (a capitalised last package segment). *)
Theorem ambiguous_until_imported
    (j : JniParams) (param line : string) (l1 l2 : list string) :
  let name := element_type param in
  let implicit_import := normalize_implicit_import line in
  let q := "L" +:+ str_replace "." "/" implicit_import in
  assoc name pod_param_map = None ->
  str_in "/" name = false ->
  find_known_class j name = None ->
  find_import j name = None ->
  str_in "." name = false ->
  In line (_implicit_imports j) ->
  endswith implicit_import ("." +:+ name) = true ->
  (exists line' : string,
     In line' (_implicit_imports j)
     /\ endswith (normalize_implicit_import line') ("." +:+ name) = true
     /\ JavaToJni j param
        = Raise (SyntaxError
                   (ambiguous_class_message name (normalize_implicit_import line'))))
  /\ (_imports j = l1 ++ l2 ->
      is_inner_class_import q = Ok false ->
      JavaToJni (set_imports (l1 ++ q :: l2) j) param
      = Ok (array_prefix param +:+ q +:+ ";")).
Proof.
  intros name implicit_import q Hpod Hslash Hknown Himp Hdot Hin Hends. split.
  - destruct (find_first
                (fun line => endswith (normalize_implicit_import line) ("." +:+ name))
                _ line Hin Hends) as (line' & Hfind & Hin' & Hends').
    exists line'. split; [exact Hin'|]. split; [exact Hends'|].
    rewrite JavaToJni_resolve. fold name. unfold resolve.
    rewrite Hpod, Hslash, Hknown, Himp, Hdot.
    unfold _CheckImplicitImports. rewrite Hfind. reflexivity.
  - intros Hsplit Hinner. rewrite JavaToJni_resolve. fold name. unfold resolve.
    rewrite Hpod, Hslash.
    change (find_known_class (set_imports (l1 ++ q :: l2) j) name)
      with (find_known_class j name).
    rewrite Hknown.
    assert (Hq : find_import (set_imports (l1 ++ q :: l2) j) name = Some q).
    { unfold find_import in *. cbn [_imports set_imports].
      rewrite Hsplit in Himp. apply find_app_none in Himp as [H1 _].
      apply find_middle; [exact H1|].
      now apply import_matches_simple_name. }
    rewrite Hq, Hinner. reflexivity.
Qed.

Lemma ambiguous_until_imported_witness :
  (exists line' : string,
     In line' example_table
     /\ endswith (normalize_implicit_import line') ("." +:+ "List") = true
     /\ JavaToJni (SetFullyQualifiedClass "org/chromium/foo/Foo"
                     (fresh_params example_table)) "List<String>[]"
        = Raise (SyntaxError
                   (ambiguous_class_message "List" (normalize_implicit_import line'))))
  /\ JavaToJni (set_imports ([] ++ "Ljava/util/List" :: [])
                  (SetFullyQualifiedClass "org/chromium/foo/Foo"
                     (fresh_params example_table))) "List<String>[]"
     = Ok "[Ljava/util/List;".
Proof.
  pose proof (ambiguous_until_imported
                (SetFullyQualifiedClass "org/chromium/foo/Foo"
                   (fresh_params example_table))
                "List<String>[]" ("java/util/List.class" +:+ NL) [] []) as H.
  cbv zeta in H.
  destruct H as [H1 H2]; try (vm_compute; reflexivity).
  - left. reflexivity.
  - split; [exact H1|]. apply H2; vm_compute; reflexivity.
Defined.

(** ** Class path definitions *)

Lemma list_fmap_map {A B : Type} (f : A -> B) (l : list A) : f <$> l = map f l.
Proof. induction l as [|x l IH]; [reflexivity|]. cbn. now rewrite IH. Qed.

Lemma keys_of_dict (m : gmap string string) (c : string) :
  In c (map fst (map_to_list m)) <-> is_Some (m !! c).
Proof.
  rewrite <- list_fmap_map, <- list_elem_of_In, list_elem_of_fmap. split.
  - intros [[k v] [-> Hkv]]. apply elem_of_map_to_list in Hkv. now exists v.
  - intros [v Hv]. exists (c, v). split; [reflexivity|].
    now apply elem_of_map_to_list.
Qed.

(** The keys of the dict that [GetUniqueClasses] returns. *)
Lemma GetUniqueClasses_loop {A : Type} `{Entry A} (g : InlHeaderFileGenerator)
    (origin : list A) (ret : gmap string string) (c : string) :
  is_Some (foldl (fun ret entry =>
                    let java_class_name := entry_java_class_name entry in
                    if String.eqb java_class_name "" then
                      <[class_name g := fully_qualified_class g]> ret
                    else
                      <[java_class_name :=
                          fully_qualified_class g +:+ "$" +:+ java_class_name]> ret)
                 ret origin !! c)
  <-> is_Some (ret !! c)
      \/ (c = class_name g /\ exists e, In e origin /\ entry_java_class_name e = "")
      \/ (c <> "" /\ exists e, In e origin /\ entry_java_class_name e = c).
Proof.
  revert ret. induction origin as [|e origin IH]; intros ret; cbn [foldl].
  - split; [auto|]. intros [?|[(_ & ? & [] & _)|(_ & ? & [] & _)]]. assumption.
  - rewrite IH. cbv zeta.
    destruct (String.eqb_spec (entry_java_class_name e) "") as [He|He];
      rewrite lookup_insert_is_Some'; cbn [In]; split.
    + intros [[<-|?]|[(-> & x & ? & ?)|(? & x & ? & ?)]]; eauto 10.
    + intros [?|[(-> & x & [<-|?] & ?)|(? & x & [<-|?] & ?)]]; eauto 10.
      congruence.
    + intros [[<-|?]|[(-> & x & ? & ?)|(? & x & ? & ?)]]; eauto 10.
    + intros [?|[(-> & x & [<-|?] & ?)|(? & x & [<-|?] & ?)]]; eauto 10.
      congruence.
Qed.

Lemma GetUniqueClasses_keys {A : Type} `{Entry A} (g : InlHeaderFileGenerator)
    (origin : list A) (c : string) :
  is_Some (GetUniqueClasses g origin !! c)
  <-> c = class_name g
      \/ (c <> "" /\ exists e, In e origin /\ entry_java_class_name e = c).
Proof.
  unfold GetUniqueClasses. rewrite GetUniqueClasses_loop.
  rewrite lookup_singleton_is_Some. split.
  - intros [->|[[-> _]|?]]; auto.
  - intros [->|?]; auto.
Qed.

(** C7, the claim as stated fails: the nested class [Inner] is referred
    to by two native declarations, and with implicit registration (the
    default) the header has no class path constant and no handle for it;
    [Foo] and [Helper] have one of each. *)
Lemma no_class_path_for_native_class :
  exists (ns : list NativeMethod) (cs : list CalledByNative),
    ExtractNatives native_call_source "int" = Ok ns
    /\ (j <- params_of_source [] native_call_source ;;
        ExtractCalledByNatives j native_call_source) = Ok cs
    /\ map NativeMethod.java_class_name ns = [Some "Inner"; Some "Inner"]
    /\ let g := InlHeaderFileGenerator__init__ None "org/chromium/foo/Foo" ns cs []
                  example_options in
       In "Inner" (referenced_classes g)
       /\ emitted_classes g = ["Foo"; "Helper"]
       /\ class_path_constants g
          = [ class_path_constant "Foo" "org/chromium/foo/Foo";
              class_path_constant "Helper" "org/chromium/foo/Foo$Helper" ]
       /\ class_handles g = [class_handle "Foo"; class_handle "Helper"].
Proof.
  eexists _, _. split; [vm_compute; reflexivity|].
  split; [vm_compute; reflexivity|].
  split; [reflexivity|].
  cbv zeta. split; [vm_compute; tauto|].
  split; [vm_compute; reflexivity|].
  split; vm_compute; reflexivity.
Qed.

(** C7, amended: the header has exactly one class path constant and
    exactly one lazily initialised class handle for each of these classes
    and for no other: the class of the file, every class named by a
    called-by-native declaration and, when explicit registration is
    requested ([native_exports_optional]), every class named by a native
    declaration.  No class occurs twice, however many declarations name
    it. *)
Theorem class_path_definitions_unique (g : InlHeaderFileGenerator) :
  NoDup (emitted_classes g)
  /\ (forall c : string,
        In c (emitted_classes g)
        <-> c = class_name g
            \/ (c <> ""
                /\ exists m, In m (called_by_natives g)
                             /\ CalledByNative.java_class_name m = c)
            \/ (native_exports_optional (options g) = true
                /\ c <> ""
                /\ exists n, In n (natives g)
                             /\ NativeMethod.java_class_name n = Some c))
  /\ length (class_path_constants g) = length (emitted_classes g)
  /\ class_handles g = map class_handle (emitted_classes g)
  /\ class_path_constants g
     = map (fun e => class_path_constant (fst e) (snd e)) (class_path_entries g)
  /\ GetClassPathDefinitions g
     = str_join NL (class_path_constants g ++ class_handles g).
Proof.
  split; [|split; [|split; [|split; [|split]]]].
  - unfold emitted_classes, class_path_entries. rewrite <- list_fmap_map.
    apply NoDup_fst_map_to_list.
  - intros c. unfold emitted_classes, class_path_entries. rewrite keys_of_dict.
    unfold all_classes. destruct (native_exports_optional (options g)).
    + rewrite lookup_union_is_Some, !GetUniqueClasses_keys.
      unfold entry_java_class_name, native_entry, called_by_native_entry. split.
      * intros [[->|(Hc & n & Hn & E)]|[->|(Hc & m & Hm & E)]].
        -- now left.
        -- right. right. repeat split; try assumption. exists n. split; [assumption|].
           destruct (NativeMethod.java_class_name n); simpl in E; congruence.
        -- now left.
        -- right. left. split; [assumption|]. exists m. now split.
      * intros [->|[(Hc & m & Hm & E)|(_ & Hc & n & Hn & E)]].
        -- left. now left.
        -- right. right. split; [assumption|]. exists m. now split.
        -- left. right. split; [assumption|]. exists n. split; [assumption|].
           now rewrite E.
    + rewrite GetUniqueClasses_keys.
      unfold entry_java_class_name, called_by_native_entry. split.
      * intros [->|(Hc & m & Hm & E)].
        -- now left.
        -- right. left. split; [assumption|]. exists m. now split.
      * intros [->|[(Hc & m & Hm & E)|(? & _)]].
        -- now left.
        -- right. split; [assumption|]. exists m. now split.
        -- discriminate.
  - unfold class_path_constants, emitted_classes. now rewrite !length_map.
  - unfold class_handles, emitted_classes. rewrite map_map.
    apply map_ext. now intros [c p].
  - unfold class_path_constants. apply map_ext. now intros [c p].
  - reflexivity.
Qed.

Lemma class_path_definitions_unique_witness :
  NoDup (emitted_classes helper_generator)
  /\ In "Helper" (emitted_classes helper_generator).
Proof.
  pose proof (class_path_definitions_unique helper_generator) as (Hnd & Hin & _).
  split; [exact Hnd|].
  apply (proj2 (Hin "Helper")). right. left.
  split; [discriminate|].
  exists (CalledByNative.__init__ false false false "Helper" "void" "a" [] None false).
  split; [left; reflexivity | reflexivity].
Defined.

(** ** Writing the header *)

(** C8: when the extraction or the resolution of the input raises,
    [GenerateJNIHeader] ends with a status other than zero and has
    written nothing: no file and no directory is created or changed, and
    standard output receives at most the text of the [ParseError], never
    header text. *)
Theorem GenerateJNIHeader_all_or_nothing
    (GetContent : JniParams -> InlHeaderFileGenerator -> result string)
    (JNIFromJavaP_content : World -> string -> Options -> result string)
    (abspath : string -> string)
    (j : JniParams) (input_file : string) (output_file : option string)
    (options : Options) (w : World) (e : exn) :
  generate_content GetContent JNIFromJavaP_content j w input_file options = Raise e ->
  let run := GenerateJNIHeader GetContent JNIFromJavaP_content abspath j
               input_file output_file options w in
  exit_status (snd run) <> 0%Z
  /\ files (fst run) = files w
  /\ dirs (fst run) = dirs w
  /\ (stdout (fst run) = stdout w
      \/ exists description context_lines,
           e = ParseError description context_lines
           /\ stdout (fst run)
              = stdout w ++ [ParseError__str__ description context_lines]).
Proof.
  intros He run. subst run. unfold GenerateJNIHeader. rewrite He.
  destruct e; cbn; repeat split; try discriminate; eauto.
Qed.

Lemma GenerateJNIHeader_all_or_nothing_witness :
  let run := GenerateJNIHeader example_GetContent example_javap (fun p => p)
               (fresh_params example_table) "Foo.java" (Some "out/Foo_jni.h")
               example_options broken_world in
  exit_status (snd run) <> 0%Z
  /\ files (fst run) = files broken_world
  /\ dirs (fst run) = dirs broken_world
  /\ (stdout (fst run) = stdout broken_world
      \/ exists description context_lines,
           broken_error = ParseError description context_lines
           /\ stdout (fst run)
              = stdout broken_world ++ [ParseError__str__ description context_lines]).
Proof.
  apply (GenerateJNIHeader_all_or_nothing example_GetContent example_javap
           (fun p => p) (fresh_params example_table) "Foo.java"
           (Some "out/Foo_jni.h") example_options broken_world broken_error).
  vm_compute. reflexivity.
Defined.

(** The same for a failure of the resolution, which no handler catches. *)
Lemma GenerateJNIHeader_ambiguous_type :
  GenerateJNIHeader example_GetContent example_javap (fun p => p)
    (fresh_params example_table) "Foo.java" (Some "out/Foo_jni.h")
    example_options (world_with "Foo.java" ambiguous_source)
  = (world_with "Foo.java" ambiguous_source,
     Uncaught (SyntaxError (ambiguous_class_message "List" "java.util.List"))).
Proof. vm_compute. reflexivity. Qed.

(** ** Names of native methods *)

Lemma for_each_Forall2 {A B : Type} (f : A -> result B) (l : list A) (l' : list B) :
  for_each f l = Ok l' -> Forall2 (fun a b => f a = Ok b) l l'.
Proof.
  revert l'. induction l as [|a l IH]; intros l'; cbn [for_each].
  - intros [= <-]. constructor.
  - destruct (f a) as [b|] eqn:Efa; cbn [bind]; [|discriminate].
    destruct (for_each f l) as [bs|]; cbn [bind]; [|discriminate].
    intros [= <-]. constructor; [exact Efa | now apply IH].
Qed.

Lemma native_of_match_name (ptr_type : string) (m : rematch) (n : NativeMethod) :
  native_of_match ptr_type m = Ok n ->
  NativeMethod.name n = str_replace "native" "" (group_str m "name").
Proof.
  unfold native_of_match. destruct (Parse _) as [ps|]; cbn [bind]; [|discriminate].
  intros [= <-]. unfold NativeMethod.__init__.
  destruct ps as [|p0 ps]; [reflexivity|].
  destruct (_ && _); reflexivity.
Qed.

(** C9: the name stored for an extracted native method is the declared
    name with every occurrence of [native] taken out, as [str.replace]
    does, not only the prefix: [nativeUpdateAlternative] is stored as
    [UpdateAlter], which is not the declared name without its prefix, and
    the name of the stub is built from the stored name. *)
Theorem native_name_loses_every_native :
  (forall (contents ptr_type : string) (ns : list NativeMethod),
     ExtractNatives contents ptr_type = Ok ns ->
     Forall2 (fun m n =>
                NativeMethod.name n = str_replace "native" "" (group_str m "name"))
             (finditer re_native (str_replace NL "" contents)) ns)
  /\ (forall (g : InlHeaderFileGenerator) (n : NativeMethod),
        exists java_name : string,
          GetStubName g n = "Java_" +:+ java_name +:+ "_native" +:+ NativeMethod.name n)
  /\ (exists n : NativeMethod,
        ExtractNatives alternative_source "long" = Ok [n]
        /\ map (fun m => group_str m "name")
               (finditer re_native (str_replace NL "" alternative_source))
           = ["nativeUpdateAlternative"]
        /\ NativeMethod.name n = "UpdateAlter"
        /\ NativeMethod.name n
           <> str_drop (String.length "native") "nativeUpdateAlternative"
        /\ GetStubName
             (InlHeaderFileGenerator__init__ None "org/chromium/foo/Foo" [n] [] []
                example_options) n
           = "Java_org_chromium_foo_Foo_nativeUpdateAlter").
Proof.
  split; [|split].
  - intros contents ptr_type ns H. unfold ExtractNatives in H.
    apply for_each_Forall2 in H.
    eapply Forall2_impl; [exact H|].
    intros m n Hmn. cbv beta in Hmn. now apply native_of_match_name in Hmn.
  - intros g n. unfold GetStubName. eexists. reflexivity.
  - eexists. split; [vm_compute; reflexivity|].
    split; [vm_compute; reflexivity|].
    split; [reflexivity|]. split; [discriminate|]. vm_compute. reflexivity.
Qed.

Lemma native_name_loses_every_native_witness :
  Forall2 (fun m n =>
             NativeMethod.name n = str_replace "native" "" (group_str m "name"))
          (finditer re_native (str_replace NL "" alternative_source))
          [NativeMethod.__init__ false None None "void" "UpdateAlter"
             [Param.Param "long" "nativeFoo"] (Some "long") None].
Proof.
  apply (proj1 native_name_loses_every_native alternative_source "long").
  vm_compute. reflexivity.
Defined.

(** ** Files without JNI methods *)

(** C10: when the extraction from a Java source goes through and finds
    no native method and no called-by-native method, the constructor
    raises the error that names the class, and no header is produced. *)
Theorem no_jni_methods_is_an_error
    (GetContent : JniParams -> InlHeaderFileGenerator -> result string)
    (j j' : JniParams) (contents fully_qualified_class : string) (options : Options) :
  ExtractImportsAndInnerClasses (_RemoveComments contents)
    (SetFullyQualifiedClass fully_qualified_class j) = Ok j' ->
  ExtractNatives (_RemoveComments contents) (ptr_type options) = Ok [] ->
  ExtractCalledByNatives j' (_RemoveComments contents) = Ok [] ->
  JNIFromJavaSource__init__ GetContent j contents fully_qualified_class options
  = Raise (SyntaxError ("Unable to find any JNI methods for "
                        +:+ fully_qualified_class +:+ ".")).
Proof.
  intros Hi Hn Hc. unfold JNIFromJavaSource__init__.
  rewrite Hi. cbn [bind]. rewrite Hn. cbn [bind]. rewrite Hc. reflexivity.
Qed.

Lemma no_jni_methods_is_an_error_witness :
  JNIFromJavaSource__init__ example_GetContent (fresh_params example_table)
    plain_source "org/chromium/foo/Foo" example_options
  = Raise (SyntaxError "Unable to find any JNI methods for org/chromium/foo/Foo.").
Proof.
  eapply (no_jni_methods_is_an_error example_GetContent (fresh_params example_table)
            _ plain_source "org/chromium/foo/Foo" example_options);
    vm_compute; reflexivity.
Defined.

(** ** Methods that are not overloaded *)

Lemma count_of_count_up (mc : gmap string (gmap string nat)) (a' b' a b : string) :
  count_of (count_up mc a' b') a b
  = if String.eqb a' a && String.eqb b' b
    then S (count_of mc a b) else count_of mc a b.
Proof.
  unfold count_up, count_of.
  destruct (String.eqb_spec a' a) as [->|Ha].
  - rewrite lookup_insert_eq. simpl.
    destruct (String.eqb_spec b' b) as [->|Hb].
    + now rewrite lookup_insert_eq.
    + now rewrite lookup_insert_ne.
  - now rewrite lookup_insert_ne.
Qed.

Lemma count_of_empty (a b : string) : count_of ∅ a b = 0%nat.
Proof. unfold count_of. rewrite lookup_empty. simpl. now rewrite lookup_empty. Qed.

Lemma method_counts_loop (cs : list CalledByNative)
    (mc : gmap string (gmap string nat)) (a b : string) :
  count_of (foldl (fun mc c => count_up mc (CalledByNative.java_class_name c)
                                        (CalledByNative.name c)) mc cs) a b
  = (count_of mc a b + length (List.filter (same_method a b) cs))%nat.
Proof.
  revert mc. induction cs as [|c cs IH]; intros mc; cbn [foldl List.filter].
  - cbn. lia.
  - rewrite IH, count_of_count_up. unfold same_method at 2.
    destruct (_ && _); cbn [length]; lia.
Qed.

(** A called-by-native method that is the only one of its enclosing class
    and name keeps its plain name as its identifier, and nothing else of
    it changes. *)
Lemma MangleCalledByNatives_plain_name
    (j : JniParams) (cs cs' : list CalledByNative) :
  MangleCalledByNatives j cs = Ok cs' ->
  Forall2 (fun c c' =>
             overloads cs c = 1%nat ->
             c' = CalledByNative.set_method_id_var_name (CalledByNative.name c) c)
          cs cs'.
Proof.
  unfold MangleCalledByNatives. intros H. apply for_each_Forall2 in H.
  eapply Forall2_impl; [exact H|].
  intros c c' Hc Hone. cbv beta zeta in Hc.
  rewrite method_counts_loop in Hc. fold (overloads cs c) in Hc.
  rewrite Hone, count_of_empty in Hc. cbn in Hc. congruence.
Qed.

(** A run that succeeds writes the header to the output file. *)
Lemma GenerateJNIHeader_writes_on_success :
  let run := GenerateJNIHeader example_GetContent example_javap (fun p => p)
               (fresh_params example_table) "Foo.java" (Some "out/Foo_jni.h")
               example_options (world_with "Foo.java" plain_native_source) in
  exit_status (snd run) = 0%Z
  /\ files (fst run) !! "out/Foo_jni.h"
     = Some (str_join NL [ class_path_constant "Foo" "org/chromium/foo/Foo";
                           class_handle "Foo" ])
  /\ dirs (fst run) = {[ "out" ]}.
Proof. cbv zeta. repeat split; vm_compute; reflexivity. Qed.

(** * Further properties of the embedded code *)

(** ** Arrays *)

Lemma str_take_append (a b : string) : str_take (String.length a) (a +:+ b) = a.
Proof.
  induction a as [|x a IH]; [now destruct b|].
  rewrite append_cons. simpl. now rewrite IH.
Qed.

Lemma str_drop_append (a b : string) : str_drop (String.length a) (a +:+ b) = b.
Proof.
  induction a as [|x a IH]; [now destruct b|].
  rewrite append_cons. simpl. exact IH.
Qed.

Lemma str_last_marker (param : string) : str_last 2 (param +:+ "[]") = "[]".
Proof.
  unfold str_last. rewrite length_append. cbn [String.length].
  replace (String.length param + 2 - 2)%nat with (String.length param) by lia.
  apply str_drop_append.
Qed.

Lemma str_drop_last_marker (param : string) : str_drop_last 2 (param +:+ "[]") = param.
Proof.
  unfold str_drop_last. rewrite length_append. cbn [String.length].
  replace (String.length param + 2 - 2)%nat with (String.length param) by lia.
  apply str_take_append.
Qed.

(** The prefix with which the loop is entered stays in front of what the
    loop adds. *)
Lemma strip_arrays_loop_prefix (rounds : nat) (prefix param : string) :
  strip_arrays_loop rounds prefix param
  = (prefix +:+ fst (strip_arrays_loop rounds "" param),
     snd (strip_arrays_loop rounds "" param)).
Proof.
  revert prefix param. induction rounds as [|n IH]; intros prefix param.
  - cbn. now rewrite append_empty_r.
  - cbn [strip_arrays_loop]. destruct (String.eqb (str_last 2 param) "[]").
    + rewrite IH. rewrite (IH ("" +:+ "[")). cbn [fst snd].
      now rewrite append_assoc.
    + cbn. now rewrite append_empty_r.
Qed.

(** Any bound that is at least the length gives the same result. *)
Lemma strip_arrays_loop_bound (n m : nat) (prefix param : string) :
  (String.length param <= n)%nat -> (String.length param <= m)%nat ->
  strip_arrays_loop n prefix param = strip_arrays_loop m prefix param.
Proof.
  revert m prefix param. induction n as [|n IH]; intros m prefix param Hn Hm.
  - destruct param; [|simpl in Hn; lia]. destruct m; reflexivity.
  - destruct m as [|m].
    + destruct param; [reflexivity | simpl in Hm; lia].
    + cbn [strip_arrays_loop].
      destruct (String.eqb_spec (str_last 2 param) "[]") as [E|E]; [|reflexivity].
      apply IH; unfold str_drop_last; rewrite length_str_take;
        (destruct param; [discriminate | simpl in *; lia]).
Qed.

Lemma strip_arrays_loop_S (n : nat) (prefix param : string) :
  strip_arrays_loop (S n) prefix param
  = if String.eqb (str_last 2 param) "[]"
    then strip_arrays_loop n (prefix +:+ "[") (str_drop_last 2 param)
    else (prefix, param).
Proof. reflexivity. Qed.

Lemma strip_arrays_marker (param : string) :
  strip_arrays (param +:+ "[]")
  = ("[" +:+ fst (strip_arrays param), snd (strip_arrays param)).
Proof.
  unfold strip_arrays. rewrite length_append. cbn [String.length].
  replace (String.length param + 2)%nat with (S (S (String.length param))) by lia.
  rewrite strip_arrays_loop_S.
  rewrite str_last_marker, str_drop_last_marker, String.eqb_refl.
  rewrite strip_arrays_loop_prefix.
  rewrite (strip_arrays_loop_bound (S (String.length param)) (String.length param))
    by lia.
  reflexivity.
Qed.

(** The descriptor or the error of [resolve] for a prefix is the one for
    the empty prefix, with the prefix in front of the descriptor. *)
Lemma resolve_prefix (j : JniParams) (prefix param : string) :
  resolve j prefix param
  = match resolve j "" param with
    | Ok d => Ok (prefix +:+ d)
    | Raise e => Raise e
    end.
Proof.
  unfold resolve.
  destruct (assoc param pod_param_map); [reflexivity|].
  destruct (str_in "/" param); [reflexivity|].
  destruct (find_known_class j param); [reflexivity|].
  destruct (find_import j param).
  - destruct (is_inner_class_import s) as [[|]|]; reflexivity.
  - destruct (str_in "." param).
    + destruct (find_import j _); reflexivity.
    + destruct (_CheckImplicitImports j param); reflexivity.
Qed.

(** X1.  One more array marker at the end of a type puts one more [[] in
    front of its descriptor, and changes nothing about a failure: this
    holds for every type and every context. *)
Theorem JavaToJni_array (j : JniParams) (param : string) :
  JavaToJni j (param +:+ "[]")
  = match JavaToJni j param with
    | Ok d => Ok ("[" +:+ d)
    | Raise e => Raise e
    end.
Proof.
  rewrite !JavaToJni_resolve. unfold array_prefix, element_type.
  rewrite strip_arrays_marker. cbn [fst snd].
  rewrite resolve_prefix.
  rewrite (resolve_prefix j (fst (strip_arrays param))).
  destruct (resolve j "" _); [|reflexivity].
  now rewrite append_assoc.
Qed.

(** ** The class of the file and its package *)

Lemma find_app_skip {A : Type} (f : A -> bool) (l1 l2 : list A) :
  find f l1 = None -> find f (l1 ++ l2) = find f l2.
Proof.
  induction l1 as [|x l1 IH]; simpl; [reflexivity|].
  destruct (f x); [discriminate | exact IH].
Qed.

Lemma str_append (l1 l2 : list ascii) : str (l1 ++ l2) = str l1 +:+ str l2.
Proof.
  induction l1 as [|a l1 IH]; [reflexivity|]. cbn. rewrite append_cons.
  f_equal. exact IH.
Qed.

Lemma str_chars (s : string) : str (chars s) = s.
Proof. apply string_of_list_ascii_of_string. Qed.

Lemma split_from_cons (sep : ascii) (cur : list ascii) (c : ascii) (s : string) :
  split_from (String sep "") 0 cur (String c s)
  = if Ascii.eqb c sep
    then str (rev cur) :: split_from (String sep "") 0 [] s
    else split_from (String sep "") 0 (c :: cur) s.
Proof. cbn [split_from]. rewrite prefix_char. reflexivity. Qed.

Lemma split_from_nonempty (sep : ascii) (cur : list ascii) (s : string) :
  split_from (String sep "") 0 cur s <> [].
Proof.
  revert cur. induction s as [|c s IH]; intros cur; [discriminate|].
  rewrite split_from_cons. destruct (Ascii.eqb c sep); [discriminate | apply IH].
Qed.

Lemma str_in_char_cons (o c : ascii) (s : string) :
  str_in (String o "") (String c s) = Ascii.eqb c o || str_in (String o "") s.
Proof. cbn [str_in]. rewrite prefix_char. now destruct (Ascii.eqb c o). Qed.

(** A string without the separator is one piece. *)
Lemma split_from_absent (sep : ascii) (cur : list ascii) (s : string) :
  str_in (String sep "") s = false ->
  split_from (String sep "") 0 cur s = [str (rev cur) +:+ s].
Proof.
  revert cur. induction s as [|c s IH]; intros cur H.
  - cbn. now rewrite append_empty_r.
  - rewrite str_in_char_cons in H. apply orb_false_iff in H as [Hc Hs].
    rewrite split_from_cons, Hc, (IH _ Hs). cbn [rev].
    rewrite str_append, append_assoc. reflexivity.
Qed.

Lemma all_but_last_cons {A : Type} (x : A) (l : list A) :
  l <> [] -> all_but_last (x :: l) = x :: all_but_last l.
Proof.
  unfold all_but_last. destruct l as [|y l]; [contradiction|]. intros _.
  cbn [length]. replace (S (S (length l)) - 1)%nat with (S (S (length l) - 1)) by lia.
  reflexivity.
Qed.

(** The pieces before the last separator. *)
Lemma split_from_all_but_last (sep : ascii) (cur : list ascii) (a b : string) :
  str_in (String sep "") b = false ->
  all_but_last (split_from (String sep "") 0 cur (a +:+ String sep b))
  = split_from (String sep "") 0 cur a.
Proof.
  intros Hb. revert cur. induction a as [|c a IH]; intros cur.
  - rewrite append_nil_l, split_from_cons, Ascii.eqb_refl.
    rewrite (split_from_absent _ _ _ Hb). reflexivity.
  - rewrite append_cons, !split_from_cons. destruct (Ascii.eqb c sep).
    + rewrite all_but_last_cons by apply split_from_nonempty. now rewrite IH.
    + apply IH.
Qed.

Lemma str_join_cons (sep x y : string) (l : list string) :
  str_join sep (x :: y :: l) = x +:+ sep +:+ str_join sep (y :: l).
Proof. reflexivity. Qed.

(** Joining the pieces with the separator gives the string back. *)
Lemma join_split_from (sep : ascii) (cur : list ascii) (s : string) :
  str_join (String sep "") (split_from (String sep "") 0 cur s)
  = str (rev cur) +:+ s.
Proof.
  revert cur. induction s as [|c s IH]; intros cur.
  - cbn. now rewrite append_empty_r.
  - rewrite split_from_cons. destruct (Ascii.eqb_spec c sep) as [->|Hc].
    + pose proof (split_from_nonempty sep [] s) as Hne.
      pose proof (IH []) as IH0.
      destruct (split_from (String sep "") 0 [] s) as [|y l]; [contradiction|].
      rewrite str_join_cons, IH0. reflexivity.
    + rewrite IH. cbn [rev]. rewrite str_append, append_assoc. reflexivity.
Qed.

Lemma join_split (sep : ascii) (s : string) :
  str_join (String sep "") (str_split (String sep "") s) = s.
Proof. unfold str_split. now rewrite join_split_from. Qed.

(** The package of a class is its path without the last segment. *)
Lemma SetFullyQualifiedClass_package (j : JniParams) (pkg cls : string) :
  str_in "/" cls = false ->
  _package (SetFullyQualifiedClass (pkg +:+ "/" +:+ cls) j) = pkg.
Proof.
  intros H. cbn [SetFullyQualifiedClass _package]. unfold str_split.
  change ("/" +:+ cls) with (String "/" cls).
  rewrite (split_from_all_but_last "/" [] pkg cls H).
  apply (join_split "/").
Qed.

(** X2.  In the file of the class [pkg/cls], the simple name [cls]
    resolves to the binary name of that class, whatever the imports, the
    inner classes and the table of implicit imports are, provided [cls]
    is not the name of a primitive or of a well-known class of
    [java.lang] (which come first) and is a plain name. *)
Theorem JavaToJni_own_class (j : JniParams) (pkg cls : string) :
  str_last 2 cls <> "[]" ->
  str_find "<" cls = None ->
  assoc cls pod_param_map = None ->
  str_in "/" cls = false ->
  find (fun qualified_name =>
          endswith qualified_name ("/" +:+ cls)
          || endswith qualified_name ("$" +:+ str_replace "." "$" cls)
          || String.eqb qualified_name ("L" +:+ cls)) object_param_list = None ->
  JavaToJni (SetFullyQualifiedClass (pkg +:+ "/" +:+ cls) j) cls
  = Ok ("L" +:+ pkg +:+ "/" +:+ cls +:+ ";").
Proof.
  intros Harr Hgen Hpod Hslash Hknown. unfold JavaToJni.
  rewrite (strip_arrays_none cls Harr). unfold strip_generic. rewrite Hgen.
  unfold resolve. rewrite Hpod, Hslash. unfold find_known_class.
  rewrite (find_app_skip _ _ _ Hknown).
  cbn [SetFullyQualifiedClass _fully_qualified_class app find].
  assert (E : endswith ("L" +:+ pkg +:+ "/" +:+ cls) ("/" +:+ cls) = true).
  { apply endswith_spec. exists ("L" +:+ pkg). now rewrite append_assoc. }
  rewrite E. cbn [orb]. rewrite append_nil_l, !append_assoc. reflexivity.
Qed.

Lemma JavaToJni_own_class_witness :
  JavaToJni (SetFullyQualifiedClass ("org/chromium/foo" +:+ "/" +:+ "Foo")
               (fresh_params example_table)) "Foo"
  = Ok ("L" +:+ "org/chromium/foo" +:+ "/" +:+ "Foo" +:+ ";").
Proof.
  apply (JavaToJni_own_class (fresh_params example_table) "org/chromium/foo" "Foo");
    [discriminate | reflexivity..].
Defined.

(** X3.  A plain type name that no rule knows (no primitive, no slash,
    no well-known, own or inner class, no import, no dot, not in the
    table of implicit imports) is taken to be a class of the package of
    the file: in the file of [pkg/cls] it resolves to [Lpkg/name;] behind
    its array prefix. *)
Theorem JavaToJni_same_package (j : JniParams) (pkg cls param : string) :
  let j' := SetFullyQualifiedClass (pkg +:+ "/" +:+ cls) j in
  let name := element_type param in
  str_in "/" cls = false ->
  assoc name pod_param_map = None ->
  str_in "/" name = false ->
  find_known_class j' name = None ->
  find_import j' name = None ->
  str_in "." name = false ->
  _CheckImplicitImports j' name = Ok tt ->
  JavaToJni j' param
  = Ok (array_prefix param +:+ "L" +:+ pkg +:+ "/" +:+ name +:+ ";").
Proof.
  intros j' name Hcls Hpod Hslash Hknown Himp Hdot Htab.
  rewrite JavaToJni_resolve. fold name. unfold resolve.
  rewrite Hpod, Hslash, Hknown, Himp, Hdot, Htab. cbn [bind].
  unfold j'. now rewrite SetFullyQualifiedClass_package.
Qed.

Lemma JavaToJni_same_package_witness :
  JavaToJni (SetFullyQualifiedClass ("org/chromium/foo" +:+ "/" +:+ "Foo")
               (fresh_params example_table)) "Bar[]"
  = Ok (array_prefix "Bar[]" +:+ "L" +:+ "org/chromium/foo" +:+ "/"
        +:+ element_type "Bar[]" +:+ ";").
Proof.
  apply (JavaToJni_same_package (fresh_params example_table)
           "org/chromium/foo" "Foo" "Bar[]"); reflexivity.
Defined.

(** X4.  A class of the default package cannot be processed: without a
    slash in the class path the package is empty and the constructor
    raises the [RuntimeError] of [ExtractImportsAndInnerClasses], whatever
    the contents of the file. *)
Theorem default_package_is_an_error
    (GetContent : JniParams -> InlHeaderFileGenerator -> result string)
    (j : JniParams) (contents fully_qualified_class : string) (options : Options) :
  str_in "/" fully_qualified_class = false ->
  JNIFromJavaSource__init__ GetContent j contents fully_qualified_class options
  = Raise (RuntimeError ("SetFullyQualifiedClass must be called before "
                         +:+ "ExtractImportsAndInnerClasses")).
Proof.
  intros H. unfold JNIFromJavaSource__init__, ExtractImportsAndInnerClasses.
  cbn [SetFullyQualifiedClass _package]. unfold str_split.
  rewrite (split_from_absent "/" [] _ H). reflexivity.
Qed.

Lemma default_package_is_an_error_witness :
  JNIFromJavaSource__init__ example_GetContent (fresh_params []) plain_native_source
    "Foo" example_options
  = Raise (RuntimeError ("SetFullyQualifiedClass must be called before "
                         +:+ "ExtractImportsAndInnerClasses")).
Proof.
  apply (default_package_is_an_error example_GetContent (fresh_params [])
           plain_native_source "Foo" example_options).
  reflexivity.
Defined.

(** ** Imports *)

Lemma for_state_invariant {A S : Type} (P : S -> Prop) (f : S -> A -> result S)
    (l : list A) (s s' : S) :
  (forall s a s', P s -> f s a = Ok s' -> P s') ->
  P s -> for_state f l s = Ok s' -> P s'.
Proof.
  intros Hf. revert s. induction l as [|a l IH]; intros s Hs; cbn [for_state].
  - now intros [= <-].
  - destruct (f s a) as [s1|] eqn:E; cbn [bind]; [|discriminate].
    apply IH. exact (Hf _ _ _ Hs E).
Qed.

(** What [AddAdditionalImport] does when it succeeds. *)
Lemma AddAdditionalImport_ok (class_name : string) (j j' : JniParams) :
  AddAdditionalImport class_name j = Ok j' ->
  endswith class_name ".class" = true
  /\ str_in "." (str_drop_last (String.length ".class") class_name) = false
  /\ ~ In ("L" +:+ _package j +:+ "/"
           +:+ str_drop_last (String.length ".class") class_name) (_imports j)
  /\ j' = set_imports
            (_imports j
             ++ ["L" +:+ _package j +:+ "/"
                 +:+ str_drop_last (String.length ".class") class_name]) j.
Proof.
  unfold AddAdditionalImport.
  destruct (endswith class_name ".class"); cbn [negb]; [|discriminate].
  destruct (str_in "." _); [discriminate|].
  case_bool_decide as Hin; [discriminate|].
  intros [= <-]. rewrite list_elem_of_In in Hin. auto.
Qed.

Lemma extends_refl (j : JniParams) : extends j j.
Proof. repeat split; try (exists []; now rewrite app_nil_r). Qed.

Lemma extends_imports (j j' : JniParams) (l : list string) :
  extends j j' -> extends j (set_imports (_imports j' ++ l) j').
Proof.
  intros ([a Ha] & Hi & Hc & Hp & Ht). repeat split; try assumption.
  exists (a ++ l). cbn. now rewrite Ha, app_assoc.
Qed.

Lemma extends_inner_classes (j j' : JniParams) (l : list string) :
  extends j j' -> extends j (set_inner_classes (_inner_classes j' ++ l) j').
Proof.
  intros (Hi & [a Ha] & Hc & Hp & Ht). repeat split; try assumption.
  exists (a ++ l). cbn. now rewrite Ha, app_assoc.
Qed.

Lemma foldl_invariant {A S : Type} (P : S -> Prop) (f : S -> A -> S)
    (l : list A) (s : S) :
  (forall s a, P s -> P (f s a)) -> P s -> P (foldl f s l).
Proof.
  intros Hf. revert s. induction l as [|a l IH]; intros s Hs; cbn; auto.
Qed.

(** X5.  Processing the imports of a file never forgets or changes what
    is known already: when it succeeds, the imports and the inner classes
    it leaves are the former ones followed by new ones, and the class,
    the package and the table of implicit imports are the same. *)
Theorem ExtractImportsAndInnerClasses_extends
    (contents : string) (j j' : JniParams) :
  ExtractImportsAndInnerClasses contents j = Ok j' -> extends j j'.
Proof.
  unfold ExtractImportsAndInnerClasses.
  destruct (String.eqb (_package j) ""); [discriminate|].
  apply (for_state_invariant (extends j)).
  - intros s m s' Hs. apply (for_state_invariant (extends j)); [|exact Hs].
    intros s1 cn s2 Hs1 Hadd.
    destruct (AddAdditionalImport_ok _ _ _ Hadd) as (_ & _ & _ & ->).
    now apply extends_imports.
  - apply foldl_invariant.
    + intros s m Hs. cbv zeta. destruct (negb _); [|exact Hs].
      now apply extends_inner_classes.
    + apply foldl_invariant; [|apply extends_refl].
      intros s m Hs. now apply extends_imports.
Qed.

Lemma ExtractImportsAndInnerClasses_extends_witness :
  exists j' : JniParams,
    ExtractImportsAndInnerClasses inner_import_source example_params = Ok j'
    /\ extends example_params j'.
Proof.
  eexists. split; [vm_compute; reflexivity|].
  apply (ExtractImportsAndInnerClasses_extends inner_import_source).
  vm_compute. reflexivity.
Defined.

(** X6.  [AddAdditionalImport] never makes an import occur twice: it
    refuses a class that is imported already, so imports without
    duplicates stay without duplicates, and the import it adds is the
    class of that name in the package of the file. *)
Theorem AddAdditionalImport_NoDup (class_name : string) (j j' : JniParams) :
  AddAdditionalImport class_name j = Ok j' ->
  NoDup (_imports j) ->
  NoDup (_imports j')
  /\ _imports j'
     = _imports j
       ++ ["L" +:+ _package j +:+ "/"
           +:+ str_drop_last (String.length ".class") class_name].
Proof.
  intros H Hnd. destruct (AddAdditionalImport_ok _ _ _ H) as (_ & _ & Hin & ->).
  split; [|reflexivity]. cbn [set_imports _imports].
  apply NoDup_app. split; [exact Hnd|]. split.
  - intros x Hx [E|[]]%list_elem_of_In. apply Hin. rewrite E.
    now apply list_elem_of_In.
  - apply NoDup_singleton.
Qed.

Lemma AddAdditionalImport_NoDup_witness :
  exists j' : JniParams,
    AddAdditionalImport "Bar.class" example_params = Ok j'
    /\ NoDup (_imports j')
    /\ _imports j' = [] ++ ["L" +:+ "org/chromium/foo" +:+ "/" +:+ "Bar"].
Proof.
  eexists. split; [reflexivity|].
  apply (AddAdditionalImport_NoDup "Bar.class" example_params);
    [reflexivity | constructor].
Defined.

Lemma str_drop_last_append (a b : string) :
  str_drop_last (String.length b) (a +:+ b) = a.
Proof.
  unfold str_drop_last. rewrite length_append.
  replace (String.length a + String.length b - String.length b)%nat
    with (String.length a) by lia.
  apply str_take_append.
Qed.

(** X7.  [@JNIAdditionalImport(Name.class)] takes a name out of the
    ambiguity check: once [AddAdditionalImport] has accepted
    [Name.class], a type with the plain name [Name] that is no primitive
    and no well-known, own or inner class and that matched no import
    before resolves to the class [Name] of the package of the file, also
    when the table of implicit imports has a class of that name.  The
    package is assumed not to end in a capitalised segment, which
    [JavaToJni] would take for an outer class. *)
Theorem AddAdditionalImport_resolves (j j' : JniParams) (param : string) :
  let name := element_type param in
  let q := "L" +:+ _package j +:+ "/" +:+ name in
  AddAdditionalImport (name +:+ ".class") j = Ok j' ->
  assoc name pod_param_map = None ->
  str_in "/" name = false ->
  find_known_class j name = None ->
  find_import j name = None ->
  is_inner_class_import q = Ok false ->
  JavaToJni j' param = Ok (array_prefix param +:+ q +:+ ";").
Proof.
  intros name q Hadd Hpod Hslash Hknown Himp Hinner.
  destruct (AddAdditionalImport_ok _ _ _ Hadd) as (_ & _ & _ & ->).
  rewrite (str_drop_last_append name ".class"). fold q.
  rewrite JavaToJni_resolve. fold name. unfold resolve.
  rewrite Hpod, Hslash.
  change (find_known_class (set_imports (_imports j ++ [q]) j) name)
    with (find_known_class j name).
  rewrite Hknown.
  assert (Hq : find_import (set_imports (_imports j ++ [q]) j) name = Some q).
  { unfold find_import in *. cbn [_imports set_imports].
    apply find_middle; [exact Himp|].
    apply endswith_spec. exists ("L" +:+ _package j). unfold q.
    now rewrite append_assoc. }
  rewrite Hq, Hinner. reflexivity.
Qed.

Lemma AddAdditionalImport_resolves_witness :
  exists j' : JniParams,
    AddAdditionalImport (element_type "List[]" +:+ ".class")
      (SetFullyQualifiedClass "org/chromium/foo/Foo" (fresh_params example_table))
    = Ok j'
    /\ JavaToJni (SetFullyQualifiedClass "org/chromium/foo/Foo"
                    (fresh_params example_table)) "List[]"
       = Raise (SyntaxError (ambiguous_class_message "List" "java.util.List"))
    /\ JavaToJni j' "List[]"
       = Ok (array_prefix "List[]" +:+ ("L" +:+ "org/chromium/foo" +:+ "/"
                                         +:+ element_type "List[]") +:+ ";").
Proof.
  eexists. split; [vm_compute; reflexivity|]. split; [vm_compute; reflexivity|].
  apply (AddAdditionalImport_resolves
           (SetFullyQualifiedClass "org/chromium/foo/Foo" (fresh_params example_table))
           _ "List[]"); vm_compute; reflexivity.
Defined.

(** ** Parameters *)

(** The loop of [Parse], entered with the parameters read so far. *)
Lemma Parse_loop (pieces : list string) (acc ps : list Param) :
  for_state
    (fun ret p =>
       let items := str_split " " p in
       items <- drop_annotations items ;;
       let items := if bool_decide ("final" ∈ items)
                    then remove_first "final" items else items in
       match items with
       | [] => Raise IndexError
       | [datatype] =>
           Ok (ret ++ [Param.Param datatype ("p" +:+ str_of_nat (length ret))])
       | datatype :: name :: _ => Ok (ret ++ [Param.Param datatype name])
       end) pieces acc = Ok ps ->
  exists rest : list Param,
    ps = acc ++ rest
    /\ length rest = length pieces
    /\ forall (i : nat) (piece : string),
         pieces !! i = Some piece ->
         str_in " " piece = false ->
         startswith piece "@" = false ->
         piece <> "final" ->
         rest !! i = Some (Param.Param piece ("p" +:+ str_of_nat (length acc + i))).
Proof.
  revert acc. induction pieces as [|piece pieces IH]; intros acc; cbn [for_state].
  - intros [= <-]. exists []. rewrite app_nil_r. repeat split. intros i p Hp.
    discriminate.
  - match goal with |- bind ?b _ = _ -> _ => destruct b as [acc'|] eqn:E end;
      cbn [bind]; [|discriminate].
    intros H. destruct (IH _ H) as (rest & -> & Hlen & Hnames).
    assert (Hacc : exists p, acc' = acc ++ [p]
                   /\ (str_in " " piece = false -> startswith piece "@" = false ->
                       piece <> "final" ->
                       p = Param.Param piece ("p" +:+ str_of_nat (length acc)))).
    { cbv zeta in E.
      destruct (drop_annotations (str_split " " piece)) as [items|] eqn:Ed;
        cbn [bind] in E; [|discriminate].
      match type of E with
      | match ?it with _ => _ end = _ => destruct it as [|d [|n its]] eqn:Eit
      end; [discriminate| |].
      - injection E as <-. eexists. split; [reflexivity|].
        intros Hsp Hat Hfin. unfold str_split in Ed.
        rewrite (split_from_absent " " [] piece Hsp) in Ed.
        cbn [drop_annotations rev] in Ed. change (str [] +:+ piece) with piece in Ed.
        rewrite Hat in Ed. injection Ed as <-.
        case_bool_decide as Hin.
        + apply list_elem_of_In in Hin. destruct Hin as [E1|[]]. contradiction.
        + now injection Eit as <-.
      - injection E as <-. eexists. split; [reflexivity|].
        intros Hsp Hat Hfin. unfold str_split in Ed.
        rewrite (split_from_absent " " [] piece Hsp) in Ed.
        cbn [drop_annotations rev] in Ed. change (str [] +:+ piece) with piece in Ed.
        rewrite Hat in Ed. injection Ed as <-.
        case_bool_decide as Hin; [|discriminate].
        apply list_elem_of_In in Hin. destruct Hin as [E1|[]]. contradiction. }
    destruct Hacc as (p & -> & Hp).
    exists (p :: rest). rewrite <- app_assoc. split; [reflexivity|].
    split; [cbn; now rewrite Hlen|].
    intros [|i] pc Hpc Hsp Hat Hfin.
    + injection Hpc as <-. cbn. rewrite Nat.add_0_r. f_equal. now apply Hp.
    + change ((p :: rest) !! S i) with (rest !! i).
      rewrite (Hnames i pc Hpc Hsp Hat Hfin). rewrite length_app. cbn [length].
      do 4 f_equal. lia.
Qed.

(** X8.  [Parse] gives one parameter for each piece between commas, in
    order; the empty string gives no parameter; and a piece that is a
    single word (a type without a name) becomes a parameter of that type
    whose name is [p] followed by its position. *)
Theorem Parse_one_per_piece (params : string) (ps : list Param) :
  Parse params = Ok ps ->
  (params = "" -> ps = [])
  /\ (params <> "" ->
      length ps = length (str_split "," params)
      /\ forall (i : nat) (piece : string),
           map strip (str_split "," params) !! i = Some piece ->
           str_in " " piece = false ->
           startswith piece "@" = false ->
           piece <> "final" ->
           ps !! i = Some (Param.Param piece ("p" +:+ str_of_nat i))).
Proof.
  unfold Parse. destruct (String.eqb_spec params "") as [->|Hne].
  - intros [= <-]. split; [reflexivity | contradiction].
  - intros H. split; [contradiction|]. intros _.
    destruct (Parse_loop _ _ _ H) as (rest & -> & Hlen & Hnames).
    rewrite length_map in Hlen. split; [exact Hlen|]. exact Hnames.
Qed.

Lemma Parse_one_per_piece_witness :
  length [Param.Param "int" "a"; Param.Param "String[]" "p1"]
  = length (str_split "," "int a, String[]")
  /\ [Param.Param "int" "a"; Param.Param "String[]" "p1"] !! 1%nat
     = Some (Param.Param "String[]" ("p" +:+ str_of_nat 1)).
Proof.
  destruct (Parse_one_per_piece "int a, String[]"
              [Param.Param "int" "a"; Param.Param "String[]" "p1"])
    as [_ H]; [vm_compute; reflexivity|].
  destruct H as [Hlen Hnames]; [discriminate|].
  split; [exact Hlen|].
  apply (Hnames 1%nat "String[]"); [vm_compute; reflexivity | reflexivity..| discriminate].
Defined.

(** ** Mangling *)

Lemma prefix_append (a b : string) : String.prefix a (a +:+ b) = true.
Proof.
  induction a as [|c a IH]; [apply prefix_empty|].
  rewrite append_cons. simpl. destruct (ascii_dec c c); [exact IH | contradiction].
Qed.

(** X9.  [MangleCalledByNatives] returns the methods it was given, in
    the same order and with every attribute as it was, except for the
    identifier, which it sets on each of them and which always begins
    with the name of the method. *)
Theorem MangleCalledByNatives_sets_identifiers
    (j : JniParams) (cs cs' : list CalledByNative) :
  MangleCalledByNatives j cs = Ok cs' ->
  Forall2 (fun c c' =>
             exists id : string,
               c' = CalledByNative.set_method_id_var_name id c
               /\ startswith id (CalledByNative.name c) = true)
          cs cs'.
Proof.
  unfold MangleCalledByNatives. intros H. apply for_each_Forall2 in H.
  eapply Forall2_impl; [exact H|].
  intros c c' Hc. cbv beta zeta in Hc.
  destruct (1 <? _)%nat.
  - destruct (GetMangledMethodName j _ _ _) as [id|] eqn:E; cbn [bind] in Hc;
      [|discriminate].
    injection Hc as <-. exists id. split; [reflexivity|].
    unfold GetMangledMethodName in E.
    destruct (for_each _ _) as [items|]; cbn [bind] in E; [|discriminate].
    destruct (re_match _ _); [|discriminate]. injection E as <-.
    apply prefix_append.
  - cbn [bind] in Hc. injection Hc as <-. exists (CalledByNative.name c).
    split; [reflexivity|]. unfold startswith.
    rewrite <- (append_empty_r (CalledByNative.name c)) at 2. apply prefix_append.
Qed.

Lemma MangleCalledByNatives_sets_identifiers_witness :
  Forall2 (fun c c' =>
             exists id : string,
               c' = CalledByNative.set_method_id_var_name id c
               /\ startswith id (CalledByNative.name c) = true)
          (called_by_natives helper_generator)
          (map (fun c => CalledByNative.set_method_id_var_name
                           (CalledByNative.name c) c)
               (called_by_natives helper_generator)).
Proof.
  apply (MangleCalledByNatives_sets_identifiers example_params).
  vm_compute. reflexivity.
Defined.

(** ** Class paths *)

(** X10.  Every class for which a class path constant is emitted has
    one of two paths: the class of the file has the path of the file's
    class, and a class named by a declaration has that path followed by
    [$] and its name (a nested class).  A declaration that names the class
    of the file itself makes it the second. *)
Theorem class_path_of_emitted_class (g : InlHeaderFileGenerator) (c p : string) :
  In (c, p) (class_path_entries g) ->
  (c = class_name g /\ p = fully_qualified_class g)
  \/ (c <> "" /\ p = fully_qualified_class g +:+ "$" +:+ c).
Proof.
  assert (Hloop : forall (A : Type) (E : Entry A) (origin : list A) c p,
             GetUniqueClasses g origin !! c = Some p ->
             (c = class_name g /\ p = fully_qualified_class g)
             \/ (c <> "" /\ p = fully_qualified_class g +:+ "$" +:+ c)).
  { intros A E origin. unfold GetUniqueClasses.
    apply (foldl_invariant
             (fun m : gmap string string => forall c p, m !! c = Some p ->
                (c = class_name g /\ p = fully_qualified_class g)
                \/ (c <> "" /\ p = fully_qualified_class g +:+ "$" +:+ c))).
    - intros m e Hm c0 p0. cbv zeta.
      destruct (String.eqb_spec (entry_java_class_name e) "") as [He|He].
      + intros [[<- <-]|[_ H]]%lookup_insert_Some; [now left | now apply Hm].
      + intros [[<- <-]|[_ H]]%lookup_insert_Some; [now right | now apply Hm].
    - intros c0 p0 [<- <-]%lookup_singleton_Some. now left. }
  unfold class_path_entries. rewrite <- list_elem_of_In, elem_of_map_to_list.
  unfold all_classes. destruct (native_exports_optional (options g)).
  - intros [H|[_ H]]%lookup_union_Some_raw; exact (Hloop _ _ _ _ _ H).
  - apply Hloop.
Qed.

Lemma class_path_of_emitted_class_witness :
  ("Helper" = class_name helper_generator
   /\ "org/chromium/foo/Foo$Helper" = fully_qualified_class helper_generator)
  \/ ("Helper" <> ""
      /\ "org/chromium/foo/Foo$Helper"
         = fully_qualified_class helper_generator +:+ "$" +:+ "Helper").
Proof.
  apply (class_path_of_emitted_class helper_generator "Helper"
           "org/chromium/foo/Foo$Helper").
  vm_compute. tauto.
Defined.

(** ** Names of the stubs *)

Lemma replace_single_cons (o c : ascii) (new s : string) :
  str_replace (String o "") new (String c s)
  = (if Ascii.eqb c o then new else String c "")
    +:+ str_replace (String o "") new s.
Proof.
  unfold str_replace. cbn [replace_from]. rewrite prefix_char.
  destruct (Ascii.eqb c o); reflexivity.
Qed.

Lemma escape_class_cons (c : ascii) (s : string) :
  escape_class (String c s)
  = (if Ascii.eqb c "_" then "_1"
     else if Ascii.eqb c "/" then "_" else String c "")
    +:+ escape_class s.
Proof.
  unfold escape_class. rewrite replace_single_cons, replace_char_append.
  f_equal. destruct (Ascii.eqb_spec c "_") as [->|H1]; [reflexivity|].
  rewrite replace_char_cons. destruct (Ascii.eqb c "/"); reflexivity.
Qed.

(** The escaped name begins with [1] only if the name does. *)
Lemma escape_class_head (s rest : string) :
  escape_class s = String "1" rest -> exists s', s = String "1" s'.
Proof.
  destruct s as [|c s]; [discriminate|]. rewrite escape_class_cons.
  destruct (Ascii.eqb_spec c "_") as [->|H1]; [discriminate|].
  destruct (Ascii.eqb_spec c "/") as [->|H2]; [discriminate|].
  rewrite append_cons. intros [= -> _]. now exists s.
Qed.

(** The name of a stub is built from the escaped class path. *)
Lemma GetStubName_escape_class (g : InlHeaderFileGenerator) (native : NativeMethod) :
  GetStubName g native
  = "Java_"
    +:+ (if truthy (NativeMethod.java_class_name native)
         then escape_class (fully_qualified_class g) +:+ "_00024"
              +:+ default "" (NativeMethod.java_class_name native)
         else escape_class (fully_qualified_class g))
    +:+ "_native" +:+ NativeMethod.name native.
Proof. reflexivity. Qed.

(** X11.  The escaping of the class path in the name of a stub can be
    undone, so that two class paths with the same escaped name are the
    same, provided no path segment begins with the digit 1 (as no Java
    identifier does): [a/1b] and [a_b] are both escaped to [a_1b]. *)
Theorem escape_class_round_trip (s : string) :
  str_in "/1" s = false -> unescape_class (escape_class s) = s.
Proof.
  induction s as [|c s IH]; [reflexivity|].
  intros H. cbn [str_in] in H.
  destruct (String.prefix "/1" (String c s)) eqn:Hp; [discriminate|].
  specialize (IH H). rewrite escape_class_cons.
  destruct (Ascii.eqb_spec c "_") as [->|H1].
  - change ("_1" +:+ escape_class s) with (String "_" (String "1" (escape_class s))).
    cbn [unescape_class Ascii.eqb Bool.eqb]. now rewrite IH.
  - destruct (Ascii.eqb_spec c "/") as [->|H2].
    + change ("_" +:+ escape_class s) with (String "_" (escape_class s)).
      cbn [unescape_class Ascii.eqb Bool.eqb].
      destruct (escape_class s) as [|d r] eqn:Er; [now rewrite <- IH|].
      destruct (Ascii.eqb_spec d "1") as [->|Hd].
      * destruct (escape_class_head _ _ Er) as [s' ->]. simpl in Hp.
        rewrite prefix_empty in Hp. discriminate.
      * rewrite <- IH. destruct d as [[] [] [] [] [] [] [] []];
          try reflexivity. contradiction.
    + rewrite append_cons, append_nil_l. cbn [unescape_class].
      destruct (Ascii.eqb_spec c "_"); [contradiction|]. now rewrite IH.
Qed.

Lemma escape_class_round_trip_witness :
  unescape_class (escape_class "org/chromium/foo_bar/Foo") = "org/chromium/foo_bar/Foo"
  /\ escape_class "a/1b" = escape_class "a_b".
Proof.
  split; [|reflexivity].
  apply (escape_class_round_trip "org/chromium/foo_bar/Foo"). reflexivity.
Defined.

(** ** C types *)

Lemma assoc_In (k v : string) (l : list (string * string)) :
  assoc k l = Some v -> In (k, v) l.
Proof.
  induction l as [|[k' v'] l IH]; cbn [assoc]; [discriminate|].
  destruct (String.eqb_spec k' k) as [->|_].
  - intros [= ->]. now left.
  - intros H. right. now apply IH.
Qed.

(** The C type of a java type is a reference type, by the pattern
    [RE_SCOPED_JNI_TYPES], exactly when the java type is not a primitive
    type and not [void]. *)
Lemma JavaDataTypeToC_scoped (java_type : string) :
  re_match RE_SCOPED_JNI_TYPES (JavaDataTypeToC java_type)
  = negb (is_pod_or_void java_type).
Proof.
  unfold JavaDataTypeToC, is_pod_or_void.
  destruct (assoc java_type java_pod_type_map) as [c|] eqn:Epod.
  - apply assoc_In in Epod. cbn [In java_pod_type_map] in Epod.
    repeat (destruct Epod as [[= <- <-]|Epod]; [vm_compute; reflexivity|]).
    destruct Epod.
  - destruct (assoc java_type java_type_map) as [c|] eqn:Emap.
    + apply assoc_In in Emap. cbn [In java_type_map] in Emap.
      repeat (destruct Emap as [[= <- <-]|Emap]; [vm_compute; reflexivity|]).
      destruct Emap.
    + destruct (String.eqb_spec java_type "void") as [->|_]; [discriminate|].
      cbn [negb]. destruct (endswith java_type "[]").
      * destruct (assoc (str_drop_last 2 java_type) java_pod_type_map) as [c|] eqn:E;
          [|vm_compute; reflexivity].
        apply assoc_In in E. cbn [In java_pod_type_map] in E.
        repeat (destruct E as [[= _ <-]|E]; [vm_compute; reflexivity|]).
        destruct E.
      * destruct (startswith java_type "Class"); vm_compute; reflexivity.
Qed.

(** X12.  In a declaration, a parameter of a primitive type keeps its C
    type and a parameter of any other type (a string, an array, a class,
    anything unknown) is passed as a [JavaParamRef] to its C type: the
    pattern for reference types and the table of C types agree on every
    java type.  Called-by-native stubs take a [JavaRefOrBare] instead, and
    a [JniIntWrapper] for [int]. *)
Theorem declaration_wraps_references (java_type : string) :
  JavaDataTypeToCForDeclaration java_type
  = (if is_pod_or_void java_type then JavaDataTypeToC java_type
     else "const base::android::JavaParamRef<" +:+ JavaDataTypeToC java_type +:+ ">&")
  /\ JavaDataTypeToCForCalledByNativeParam java_type
     = (if String.eqb java_type "int" then "JniIntWrapper"
        else if is_pod_or_void java_type then JavaDataTypeToC java_type
        else "const base::android::JavaRefOrBare<" +:+ JavaDataTypeToC java_type
             +:+ ">&").
Proof.
  unfold JavaDataTypeToCForDeclaration, WrapCTypeForDeclaration,
    JavaDataTypeToCForCalledByNativeParam.
  rewrite JavaDataTypeToC_scoped.
  destruct (is_pod_or_void java_type); split; reflexivity.
Qed.

(** X13.  The value returned on an error is [NULL] exactly for the java
    types whose C type is a reference type; for the others it is the zero
    of the primitive type, and nothing for [void]. *)
Theorem error_return_matches_type (java_type : string) :
  (JavaReturnValueToC java_type = "NULL"
   <-> re_match RE_SCOPED_JNI_TYPES (JavaDataTypeToC java_type) = true)
  /\ (is_pod_or_void java_type = true ->
      In (JavaReturnValueToC java_type) ["0"; "false"; ""]).
Proof.
  rewrite JavaDataTypeToC_scoped. unfold is_pod_or_void, JavaReturnValueToC.
  destruct (assoc java_type java_pod_type_map) as [c|] eqn:Epod.
  - apply assoc_In in Epod. cbn [In java_pod_type_map] in Epod.
    repeat (destruct Epod as [[= <- <-]|Epod];
            [vm_compute; split; [split; discriminate | tauto]|]).
    destruct Epod.
  - destruct (String.eqb_spec java_type "void") as [->|Hv].
    + vm_compute. split; [split; discriminate | tauto].
    + split; [|discriminate]. split; [reflexivity|]. intros _.
      match goal with |- default _ ?o = _ => destruct o as [v|] eqn:E end;
        [|reflexivity].
      apply assoc_In in E. cbn [In] in E.
      repeat (destruct E as [[= <- <-]|E]; [discriminate || contradiction|]).
      destruct E.
Qed.

Lemma error_return_matches_type_witness :
  In (JavaReturnValueToC "boolean") ["0"; "false"; ""].
Proof.
  apply (proj2 (error_return_matches_type "boolean")). reflexivity.
Defined.

(** ** Registration *)

Lemma SubstituteNativeMethods_loop (j : JniParams) (g : InlHeaderFileGenerator)
    (t1 t2 : string -> string -> string) (l : list string)
    (acc1 acc2 ret1 ret2 : list string) :
  length acc1 = length acc2 ->
  for_state (fun ret clazz =>
               kmethods <- GetKMethodsString j g clazz ;;
               if String.eqb kmethods "" then Ok ret
               else Ok (ret ++ [t1 clazz kmethods])) l acc1 = Ok ret1 ->
  for_state (fun ret clazz =>
               kmethods <- GetKMethodsString j g clazz ;;
               if String.eqb kmethods "" then Ok ret
               else Ok (ret ++ [t2 clazz kmethods])) l acc2 = Ok ret2 ->
  length ret1 = length ret2.
Proof.
  revert acc1 acc2. induction l as [|clazz l IH]; intros acc1 acc2 Hlen;
    cbn [for_state].
  - now intros [= <-] [= <-].
  - destruct (GetKMethodsString j g clazz) as [km|]; cbn [bind]; [|discriminate].
    destruct (String.eqb km ""); cbn [bind].
    + now apply IH.
    + apply IH. rewrite !length_app. cbn. now rewrite Hlen.
Qed.

(** The text for one template is empty exactly when the text for another
    is. *)
Lemma SubstituteNativeMethods_empty (j : JniParams) (g : InlHeaderFileGenerator)
    (t1 t2 : string -> string -> string) (r1 r2 : string) :
  SubstituteNativeMethods j g t1 = Ok r1 ->
  SubstituteNativeMethods j g t2 = Ok r2 ->
  String.eqb r1 "" = String.eqb r2 "".
Proof.
  unfold SubstituteNativeMethods.
  destruct (for_state _ _ _) as [ret1|] eqn:E1; cbn [bind]; [|discriminate].
  destruct (for_state _ _ []) as [ret2|] eqn:E2 in |- *; cbn [bind]; [|discriminate].
  pose proof (SubstituteNativeMethods_loop j g t1 t2 _ [] [] ret1 ret2 eq_refl E1 E2)
    as Hlen.
  destruct ret1, ret2; try discriminate; now intros [= <-] [= <-].
Qed.

(** X14.  The [assert] of [GetContent] on the registration code cannot
    fail: whenever the array of native methods and the code of
    [RegisterNativesImpl] are both produced, one is empty exactly when the
    other is, so a header never has the table without the routine or the
    routine without the table. *)
Theorem registration_assert_holds (j : JniParams) (g : InlHeaderFileGenerator)
    (JNI_NATIVE_METHODS REGISTER_NATIVES : string) :
  GetJNINativeMethodsString j g = Ok JNI_NATIVE_METHODS ->
  GetRegisterNativesString j g = Ok REGISTER_NATIVES ->
  registration_assert JNI_NATIVE_METHODS REGISTER_NATIVES = true
  /\ (native_exports_optional (options g) = false ->
      JNI_NATIVE_METHODS = "" /\ REGISTER_NATIVES = "").
Proof.
  unfold GetJNINativeMethodsString, GetRegisterNativesString,
    GetRegisterNativesImplString, registration_assert.
  destruct (native_exports_optional (options g)); cbn [negb].
  - intros H1. destruct (SubstituteNativeMethods j g register_template) as [r|] eqn:H2;
      cbn [bind]; [|discriminate].
    rewrite (SubstituteNativeMethods_empty j g _ _ _ _ H1 H2).
    destruct (String.eqb r ""); intros [= <-]; split; try reflexivity; discriminate.
  - cbn [bind]. intros [= <-] [= <-]. repeat split; reflexivity.
Qed.
Lemma registration_assert_holds_witness :
  exists a b : string,
    GetJNINativeMethodsString example_params registering_generator = Ok a
    /\ GetRegisterNativesString example_params registering_generator = Ok b
    /\ a <> ""
    /\ registration_assert a b = true.
Proof.
  eexists _, _. split; [vm_compute; reflexivity|]. split; [vm_compute; reflexivity|].
  split; [discriminate|].
  apply (proj1 (registration_assert_holds example_params registering_generator _ _
                  ltac:(vm_compute; reflexivity) ltac:(vm_compute; reflexivity))).
Defined.

(** ** The output file *)




(** ** Matching *)

Lemma strip_prefix_app (p : string) (s s' : list ascii) :
  strip_prefix p s = Some s' -> s = chars p ++ s'.
Proof.
  revert s. induction p as [|a p IH]; intros s; cbn [strip_prefix].
  - now intros [= ->].
  - destruct s as [|b s]; [discriminate|].
    destruct (Ascii.eqb_spec a b) as [->|_]; [|discriminate].
    intros H. cbn. f_equal. now apply IH.
Qed.

(** Whatever a match hands to its continuation is a tail of the
    subject. *)
Lemma rmatch_suffix (r : regex) :
  forall (A : Type) (s : list ascii) (c : captures)
         (k : list ascii -> captures -> option A) (x : A),
    rmatch r s c k = Some x ->
    exists s' c', s' `suffix_of` s /\ k s' c' = Some x.
Proof.
  induction r as [|p|l|r1 IH1 r2 IH2|r1 IH1 r2 IH2|g r1 IH1|name r1 IH1|];
    intros A s c k x; cbn [rmatch].
  - intros H. now exists s, c.
  - destruct s as [|a s]; [discriminate|]. destruct (p a); [|discriminate].
    intros H. exists s, c. split; [now exists [a] | exact H].
  - destruct (strip_prefix l s) as [s'|] eqn:E; [|discriminate].
    intros H. exists s', c. split; [|exact H].
    exists (chars l). now apply strip_prefix_app.
  - intros H. destruct (IH1 _ _ _ _ _ H) as (s1 & c1 & Hs1 & H1).
    destruct (IH2 _ _ _ _ _ H1) as (s2 & c2 & Hs2 & H2).
    exists s2, c2. split; [now transitivity s1 | exact H2].
  - destruct (rmatch r1 s c k) as [y|] eqn:E.
    + intros [= <-]. now apply (IH1 _ _ _ _ _ E).
    + apply IH2.
  - generalize (length s) at 1. intros n. revert s c x.
    induction n as [|n IHn]; intros s c x.
    + destruct g.
      * intros H. now exists s, c.
      * destruct (k s c) eqn:E; [|discriminate]. intros [= <-]. now exists s, c.
    + assert (Hmore : forall y,
                 rmatch r1 s c
                   (fun s' c' =>
                      if (length s' <? length s)%nat
                      then (fix loop (n : nat) (s : list ascii) (c : captures)
                              {struct n} : option A :=
                              let more :=
                                match n with
                                | O => None
                                | S n' =>
                                    rmatch r1 s c
                                      (fun s' c' =>
                                         if (length s' <? length s)%nat
                                         then loop n' s' c' else None)
                                end in
                              if g then
                                match more with
                                | Some x => Some x
                                | None => k s c
                                end
                              else
                                match k s c with
                                | Some x => Some x
                                | None => more
                                end) n s' c'
                      else None) = Some y ->
                 exists s' c', s' `suffix_of` s /\ k s' c' = Some y).
      { intros y H. destruct (IH1 _ _ _ _ _ H) as (s1 & c1 & Hs1 & H1).
        destruct (length s1 <? length s)%nat; [|discriminate].
        destruct (IHn _ _ _ H1) as (s2 & c2 & Hs2 & H2).
        exists s2, c2. split; [now transitivity s1 | exact H2]. }
      cbv zeta. destruct g.
      * match goal with |- match ?m with _ => _ end = _ -> _ =>
          destruct m as [y|] eqn:E end.
        -- intros [= <-]. now apply Hmore.
        -- intros H. now exists s, c.
      * destruct (k s c) eqn:E.
        -- intros [= <-]. now exists s, c.
        -- apply Hmore.
  - intros H. destruct (IH1 _ _ _ _ _ H) as (s1 & c1 & Hs1 & H1).
    now exists s1, ((name, consumed s s1) :: c1).
  - destruct s as [|a s].
    + intros H. now exists [], c.
    + destruct (Ascii.eqb a newline); [|discriminate]. intros H. now exists (a :: s), c.
Qed.

Lemma match_at_suffix (r : regex) (s rest : list ascii) (c : captures) :
  match_at r s = Some (rest, c) -> rest `suffix_of` s.
Proof.
  unfold match_at. intros H.
  destruct (rmatch_suffix r _ _ _ _ _ H) as (s' & c' & Hs & [= <- _]). exact Hs.
Qed.

Lemma chars_str (l : list ascii) : chars (str l) = l.
Proof. apply list_ascii_of_string_of_list_ascii. Qed.

Lemma chars_append (a b : string) : chars (a +:+ b) = chars a ++ chars b.
Proof.
  induction a as [|x a IH]; [reflexivity|]. rewrite append_cons. cbn.
  f_equal. exact IH.
Qed.

(** The tokens of [scan] are the subject, cut into pieces: nothing is
    lost and nothing is read twice. *)
Lemma scan_partition (r : regex) (s : list ascii) (skip : nat) :
  concat (map token_chars (scan r skip s)) = drop skip s.
Proof.
  revert skip. induction s as [|a s IH]; intros skip; [now destruct skip|].
  cbn [scan]. destruct skip as [|k]; [|apply IH].
  destruct (match_at r (a :: s)) as [[rest c]|] eqn:E.
  - destruct (match_at_suffix _ _ _ _ E) as [pre Hpre].
    destruct (length (a :: s) - length rest)%nat as [|n] eqn:En.
    + cbn. now rewrite IH.
    + cbn [map concat token_chars m_text]. rewrite IH. unfold consumed.
      rewrite chars_str, En.
      assert (Hlen : length pre = S n).
      { rewrite Hpre, length_app in En. lia. }
      destruct pre as [|b pre]; [discriminate|].
      injection Hpre as <- ->. injection Hlen as <-.
      cbn [take drop]. rewrite take_app_length, drop_app_length. reflexivity.
  - cbn. now rewrite IH.
Qed.

(** X16.  Removing the comments only takes characters away: what is left
    is the text of the file with some pieces cut out, in the same order,
    so nothing is added, changed or moved. *)
Theorem RemoveComments_sublist (contents : string) :
  chars (_RemoveComments contents) `sublist_of` chars contents.
Proof.
  unfold _RemoveComments, re_sub.
  pose proof (scan_partition _comment_remover_regex (chars contents) 0) as H.
  change (drop 0 (chars contents)) with (chars contents) in H.
  remember (scan _comment_remover_regex 0 (chars contents)) as tokens eqn:Et.
  rewrite <- H. clear H Et.
  induction tokens as [|t ts IH].
  - constructor.
  - cbn [foldr map concat]. destruct t as [a|m]; cbn [token_chars].
    + cbn. now constructor.
    + destruct (startswith (m_text m) "/").
      * rewrite append_nil_l. now apply sublist_inserts_l.
      * rewrite chars_append. now apply sublist_app.
Qed.
(** ** Files without declarations *)

Lemma prefix_spec (l s : string) :
  String.prefix l s = true <-> exists post, s = l +:+ post.
Proof.
  split.
  - revert s. induction l as [|a l IH]; intros s H.
    + now exists s.
    + destruct s as [|b s]; [discriminate|]. simpl in H.
      destruct (ascii_dec a b) as [->|]; [|discriminate].
      destruct (IH _ H) as [post ->]. now exists post.
  - intros [post ->]. apply prefix_append.
Qed.

(** [sub in s] holds exactly when [s] is something, [sub], something. *)
Lemma str_in_spec (l s : string) :
  str_in l s = true <-> exists pre post, s = pre +:+ l +:+ post.
Proof.
  split.
  - induction s as [|a s IH]; cbn [str_in].
    + destruct (String.prefix l "") eqn:E; [|discriminate].
      intros _. apply prefix_spec in E as [post E]. now exists "", post.
    + destruct (String.prefix l (String a s)) eqn:E.
      * intros _. apply prefix_spec in E as [post E]. now exists "", post.
      * intros H. destruct (IH H) as (pre & post & ->). now exists (String a pre), post.
  - intros (pre & post & ->). induction pre as [|a pre IH].
    + rewrite append_nil_l.
      destruct (l +:+ post) eqn:E; cbn [str_in]; rewrite <- E, prefix_append;
        reflexivity.
    + rewrite append_cons. cbn [str_in]. rewrite IH. now destruct (String.prefix _ _).
Qed.

Lemma str_in_part (l a b c : string) :
  str_in l (a +:+ b +:+ c) = false -> str_in l b = false.
Proof.
  intros H. destruct (str_in l b) eqn:E; [|reflexivity].
  apply str_in_spec in E as (pre & post & ->).
  assert (H' : str_in l (a +:+ (pre +:+ l +:+ post) +:+ c) = true).
  { apply str_in_spec. exists (a +:+ pre), (post +:+ c).
    now rewrite !append_assoc. }
  congruence.
Qed.

Lemma rmatch_Cat {A : Type} (r1 r2 : regex) (s : list ascii) (c : captures)
    (k : list ascii -> captures -> option A) :
  rmatch (Cat r1 r2) s c k = rmatch r1 s c (fun s' c' => rmatch r2 s' c' k).
Proof. reflexivity. Qed.

(** A pattern that must pass a literal after some other parts matches
    only where the literal occurs further on. *)
Lemma rmatch_literal (rs : list regex) (l : string) (R : regex) :
  forall (A : Type) (s : list ascii) (c : captures)
         (k : list ascii -> captures -> option A) (x : A),
    rmatch (foldr Cat (Cat (Lit l) R) rs) s c k = Some x ->
    exists pre post, s = pre ++ chars l ++ post.
Proof.
  induction rs as [|r rs IH]; intros A s c k x; cbn [foldr]; rewrite rmatch_Cat.
  - cbn [rmatch]. destruct (strip_prefix l s) as [s'|] eqn:E; [|discriminate].
    intros _. exists [], s'. now apply strip_prefix_app.
  - intros H. destruct (rmatch_suffix r _ _ _ _ _ H) as (s1 & c1 & [p Hp] & H1).
    destruct (IH _ _ _ _ _ H1) as (pre & post & ->).
    exists (p ++ pre), post. now rewrite Hp, app_assoc.
Qed.

Lemma scan_literal (rs : list regex) (l : string) (R : regex) (s : string) :
  str_in l s = false ->
  scan (foldr Cat (Cat (Lit l) R) rs) 0 (chars s) = map TChar (chars s).
Proof.
  induction s as [|a s IH]; intros H; [reflexivity|].
  change (chars (String a s)) with (a :: chars s). cbn [scan map].
  destruct (match_at _ (a :: chars s)) as [[rest c]|] eqn:E.
  - exfalso. unfold match_at in E.
    destruct (rmatch_literal _ _ _ _ _ _ _ _ E) as (pre & post & Hs).
    assert (Hin : str_in l (String a s) = true).
    { apply str_in_spec. exists (str pre), (str post).
      rewrite <- (str_chars (String a s)).
      change (chars (String a s)) with (a :: chars s).
      rewrite Hs, !str_append, str_chars. reflexivity. }
    congruence.
  - f_equal. apply IH.
    apply (str_in_part l (String a "") s ""). rewrite append_empty_r. exact H.
Qed.

Lemma tokens_of_chars (f : string -> string) (cs : list ascii) :
  omap (fun t => match t with TMatch m => Some m | TChar _ => None end)
       (map TChar cs) = []
  /\ foldr (fun t acc => match t with
                         | TChar a => String a acc
                         | TMatch m => f (m_text m) +:+ acc
                         end) "" (map TChar cs) = str cs.
Proof.
  induction cs as [|a cs [IH1 IH2]]; [split; reflexivity|].
  split; [exact IH1|]. cbn [map foldr]. now rewrite IH2.
Qed.

(** Where the literal does not occur there is no match, and [re.sub]
    changes nothing. *)
Lemma finditer_literal (rs : list regex) (l : string) (R : regex) (s : string) :
  str_in l s = false ->
  finditer (foldr Cat (Cat (Lit l) R) rs) s = []
  /\ forall f, re_sub (foldr Cat (Cat (Lit l) R) rs) f s = s.
Proof.
  intros H. unfold finditer, re_sub. rewrite (scan_literal _ _ _ _ H).
  split; [apply (tokens_of_chars (fun x => x))|].
  intros f. rewrite (proj2 (tokens_of_chars f (chars s))). apply str_chars.
Qed.
(** The pieces of [split] are parts of the string. *)
Lemma split_from_part (sep : ascii) (cur : list ascii) (s piece : string) :
  In piece (split_from (String sep "") 0 cur s) ->
  exists pre post, str (rev cur) +:+ s = pre +:+ piece +:+ post.
Proof.
  revert cur. induction s as [|c s IH]; intros cur.
  - intros [<-|[]]. exists "", "". now rewrite append_nil_l.
  - rewrite split_from_cons. destruct (Ascii.eqb c sep).
    + intros [<-|H].
      * exists "", (String c s). reflexivity.
      * destruct (IH [] H) as (pre & post & E). cbn [rev] in E.
        change (str [] +:+ s) with s in E.
        exists (str (rev cur) +:+ String c pre), post.
        rewrite E, append_assoc. reflexivity.
    + intros H. destruct (IH _ H) as (pre & post & E). exists pre, post.
      rewrite <- E. cbn [rev]. rewrite str_append, append_assoc. reflexivity.
Qed.

Lemma split_lines_without (l s line : string) :
  str_in l s = false -> In line (str_split NL s) -> str_in l line = false.
Proof.
  intros H Hin. destruct (split_from_part newline [] s line Hin) as (pre & post & E).
  cbn [rev] in E. change (str [] +:+ s) with s in E. rewrite E in H.
  now apply str_in_part in H.
Qed.

Lemma find_adjacent {A : Type} (g : A -> bool) (l l' : list A) :
  (forall x, In x l -> g x = false) ->
  find (fun '(x, _) => g x) (zip l l') = None.
Proof.
  revert l'. induction l as [|a l IH]; intros l' H; [reflexivity|].
  destruct l' as [|b l']; [reflexivity|]. cbn [zip zip_with find].
  rewrite (H a (or_introl eq_refl)). apply IH. intros x Hx. apply H. now right.
Qed.

(** X17.  A file in which the text [@CalledByNative] does not occur has
    no called-by-native method: the extraction succeeds with the empty
    list, without any error. *)
Theorem ExtractCalledByNatives_none (j : JniParams) (contents : string) :
  str_in "@CalledByNative" contents = false ->
  ExtractCalledByNatives j contents = Ok [].
Proof.
  intros H. unfold ExtractCalledByNatives.
  assert (E : exists R, RE_CALLED_BY_NATIVE
                        = foldr Cat (Cat (Lit "@CalledByNative") R) [])
    by (eexists; reflexivity).
  destruct E as [R ->].
  destruct (finditer_literal [] "@CalledByNative" R contents H) as [-> Hsub].
  rewrite Hsub. cbn [for_each bind].
  unfold adjacent_pairs. rewrite find_adjacent; [reflexivity|].
  intros line Hline. now apply (split_lines_without _ contents).
Qed.

Lemma ExtractCalledByNatives_none_witness :
  ExtractCalledByNatives example_params plain_native_source = Ok [].
Proof.
  apply (ExtractCalledByNatives_none example_params plain_native_source).
  vm_compute. reflexivity.
Defined.

(** X18.  A file in which, once its lines are joined, the text [native]
    followed by a blank does not occur has no native method: the
    extraction succeeds with the empty list. *)
Theorem ExtractNatives_none (contents ptr_type : string) :
  str_in "native " (str_replace NL "" contents) = false ->
  ExtractNatives contents ptr_type = Ok [].
Proof.
  intros H. unfold ExtractNatives, re_native.
  match goal with
  | |- context [Seq (?a :: ?b :: ?c :: ?d :: Lit ?l :: ?rest)] =>
      change (Seq (a :: b :: c :: d :: Lit l :: rest))
        with (foldr Cat (Cat (Lit l) (Seq rest)) [a; b; c; d])
  end.
  match goal with
  | |- context [finditer (foldr Cat (Cat (Lit ?l) ?R) ?rs) ?s] =>
      destruct (finditer_literal rs l R s H) as [-> _]
  end.
  reflexivity.
Qed.

Lemma ExtractNatives_none_witness :
  ExtractNatives plain_source "int" = Ok [].
Proof.
  apply (ExtractNatives_none plain_source "int"). vm_compute. reflexivity.
Defined.

(** X19.  From a Java source that, after its comments are removed, has
    neither the text [@CalledByNative], nor [native] followed by a blank,
    nor an [@JNIAdditionalImport] directive, no header is generated: for a
    class in a package the constructor raises the error that no JNI
    method was found, naming the class. *)
Theorem no_declarations_no_header
    (GetContent : JniParams -> InlHeaderFileGenerator -> result string)
    (j : JniParams) (contents pkg cls : string) (options : Options) :
  pkg <> "" ->
  str_in "/" cls = false ->
  str_in "@JNIAdditionalImport(" (str_replace NL "" (_RemoveComments contents)) = false ->
  str_in "native " (str_replace NL "" (_RemoveComments contents)) = false ->
  str_in "@CalledByNative" (_RemoveComments contents) = false ->
  JNIFromJavaSource__init__ GetContent j contents (pkg +:+ "/" +:+ cls) options
  = Raise (SyntaxError ("Unable to find any JNI methods for "
                        +:+ (pkg +:+ "/" +:+ cls) +:+ ".")).
Proof.
  intros Hpkg Hcls Hadd Hnat Hcbn. unfold JNIFromJavaSource__init__.
  unfold ExtractImportsAndInnerClasses at 1.
  rewrite (SetFullyQualifiedClass_package j pkg cls Hcls).
  destruct (String.eqb_spec pkg ""); [contradiction|].
  assert (E : exists R, re_additional_imports
                        = foldr Cat (Cat (Lit "@JNIAdditionalImport(") R) [])
    by (eexists; reflexivity).
  destruct E as [R ->].
  destruct (finditer_literal [] _ R _ Hadd) as [-> _].
  cbn [for_state bind].
  rewrite (ExtractNatives_none _ _ Hnat). cbn [bind].
  rewrite (ExtractCalledByNatives_none _ _ Hcbn). reflexivity.
Qed.

Lemma no_declarations_no_header_witness :
  JNIFromJavaSource__init__ example_GetContent (fresh_params example_table)
    plain_source ("org/chromium/foo" +:+ "/" +:+ "Foo") example_options
  = Raise (SyntaxError ("Unable to find any JNI methods for "
                        +:+ ("org/chromium/foo" +:+ "/" +:+ "Foo") +:+ ".")).
Proof.
  apply (no_declarations_no_header example_GetContent (fresh_params example_table)
           plain_source "org/chromium/foo" "Foo" example_options);
    [discriminate | vm_compute; reflexivity ..].
Defined.

(** ** Running twice *)



(** ** Package and namespace *)

(** X21.  A file in which the text [package] followed by a blank does
    not occur has no class name: [ExtractFullyQualifiedJavaClassName]
    raises the error that names the file.  A file without the text
    [@JNINamespace(] followed by a quote has no namespace of its own:
    [ExtractJNINamespace] gives the empty string, so that the option
    [-n] decides. *)
Theorem no_package_no_namespace (java_file_name contents : string) :
  (str_in "package " contents = false ->
   ExtractFullyQualifiedJavaClassName java_file_name contents
   = Raise (SyntaxError ("Unable to find " +:+ DQ +:+ "package" +:+ DQ
                         +:+ " line in " +:+ java_file_name)))
  /\ (str_in ("@JNINamespace(" +:+ DQ) contents = false ->
      ExtractJNINamespace contents = "").
Proof.
  split; intros H.
  - unfold ExtractFullyQualifiedJavaClassName, findall1, re_package.
    match goal with
    | |- context [Seq (?a :: Lit ?l :: ?rest)] =>
        change (Seq (a :: Lit l :: rest)) with (foldr Cat (Cat (Lit l) (Seq rest)) [a])
    end.
    match goal with
    | |- context [finditer (foldr Cat (Cat (Lit ?l) ?R) ?rs) ?s] =>
        destruct (finditer_literal rs l R s H) as [-> _]
    end.
    reflexivity.
  - unfold ExtractJNINamespace, findall1, re_jni_namespace.
    match goal with
    | |- context [Seq (?a :: Lit ?l :: ?rest)] =>
        change (Seq (a :: Lit l :: rest)) with (foldr Cat (Cat (Lit l) (Seq rest)) [a])
    end.
    match goal with
    | |- context [finditer (foldr Cat (Cat (Lit ?l) ?R) ?rs) ?s] =>
        destruct (finditer_literal rs l R s H) as [-> _]
    end.
    reflexivity.
Qed.

Lemma no_package_no_namespace_witness :
  ExtractFullyQualifiedJavaClassName "Foo.java" "class Foo {}"
  = Raise (SyntaxError ("Unable to find " +:+ DQ +:+ "package" +:+ DQ
                        +:+ " line in " +:+ "Foo.java"))
  /\ ExtractJNINamespace plain_source = "".
Proof.
  split.
  - apply (proj1 (no_package_no_namespace "Foo.java" "class Foo {}")). reflexivity.
  - apply (proj2 (no_package_no_namespace "Foo.java" plain_source)).
    vm_compute. reflexivity.
Defined.

(** ** The form of a descriptor *)

Lemma strip_arrays_loop_brackets (rounds : nat) (param : string) :
  exists n, fst (strip_arrays_loop rounds "" param) = brackets n.
Proof.
  revert param. induction rounds as [|r IH]; intros param.
  - now exists 0%nat.
  - rewrite strip_arrays_loop_S.
    destruct (String.eqb (str_last 2 param) "[]"); [|now exists 0%nat].
    rewrite strip_arrays_loop_prefix. cbn [fst].
    destruct (IH (str_drop_last 2 param)) as [n ->]. now exists (S n).
Qed.

(** X22.  Every descriptor that [JavaToJni] returns is a run of [[], one
    for each array marker at the end of the type, followed either by the
    code of a primitive type or by a text that ends with a semicolon. *)
Theorem JavaToJni_descriptor_form (j : JniParams) (param d : string) :
  JavaToJni j param = Ok d ->
  exists (n : nat) (body : string),
    d = brackets n +:+ body
    /\ array_prefix param = brackets n
    /\ (In body (map snd pod_param_map) \/ endswith body ";" = true).
Proof.
  rewrite JavaToJni_resolve, resolve_prefix.
  destruct (strip_arrays_loop_brackets (String.length param) param) as [n Hn].
  fold (strip_arrays param) in Hn. fold (array_prefix param) in Hn.
  destruct (resolve j "" (element_type param)) as [body|] eqn:E; [|discriminate].
  intros [= <-]. exists n, body. split; [now rewrite Hn|]. split; [exact Hn|].
  unfold resolve in E.
  destruct (assoc _ pod_param_map) as [code|] eqn:Epod.
  { injection E as <-. left. apply assoc_In in Epod.
    now apply (in_map snd) in Epod. }
  right. apply endswith_spec.
  destruct (str_in "/" _).
  { injection E as <-. exists ("L" +:+ element_type param). reflexivity. }
  destruct (find_known_class j _) as [q|].
  { injection E as <-. exists q. reflexivity. }
  destruct (find_import j (element_type param)) as [q|].
  { destruct (is_inner_class_import q) as [[|]|]; cbn [bind] in E; try discriminate.
    injection E as <-. exists q. reflexivity. }
  destruct (str_in "." _).
  { destruct (find_import j _) as [q|]; [|discriminate]. injection E as <-.
    exists (q +:+ "$" +:+ default "" (from_end 1 (str_split "." (element_type param)))).
    now rewrite !append_assoc. }
  destruct (_CheckImplicitImports j _); cbn [bind] in E; [|discriminate].
  injection E as <-. exists ("L" +:+ _package j +:+ "/" +:+ element_type param).
  now rewrite !append_assoc.
Qed.

Lemma JavaToJni_descriptor_form_witness :
  exists (n : nat) (body : string),
    "[[Ljava/lang/String;" = brackets n +:+ body
    /\ array_prefix "String[][]" = brackets n
    /\ (In body (map snd pod_param_map) \/ endswith body ";" = true).
Proof.
  apply (JavaToJni_descriptor_form example_params "String[][]"). reflexivity.
Defined.
